(** * MusicSync: the room synchronisation engine of [server/index.js]

    A shallow embedding of the socket.io server: the two registries
    ([rooms], [users]), the socket.io room membership the broadcasts are
    resolved against, and one Rocq function per event handler.  Each handler
    maps the state before the event to the state after it, the list of
    emissions it made, in order, and whether it returned or threw. *)

From Stdlib Require Import Floats Ascii String ZArith.
From stdpp Require Import gmap strings list fin_maps.

Local Open Scope string_scope.
Set Warnings "-register-all".

(** ** JavaScript values

    Payload fields the server stores or relays without looking at them
    ([isPlaying], [currentTime], [song], [text], ...) arrive as arbitrary
    JSON-like values.  Numbers are IEEE 754 doubles, as in JavaScript. *)

Inductive JsVal : Type :=
| JUndefined
| JNull
| JBool (b : bool)
| JNum (x : float)
| JStr (s : string)
| JArr (elems : list JsVal)
| JObj (fields : list (string * JsVal)).

(** ECMAScript ToBoolean: [undefined], [null], [false], [+0], [-0], [NaN] and
    the empty string are falsy, everything else is truthy. *)
Definition truthy (v : JsVal) : bool :=
  match v with
  | JUndefined | JNull => false
  | JBool b => b
  | JNum x => negb (PrimFloat.is_zero x || PrimFloat.is_nan x)
  | JStr s => negb (String.eqb s "")
  | JArr _ | JObj _ => true
  end.

(** [a || b] *)
Definition js_or (a b : JsVal) : JsVal := if truthy a then a else b.

(** Own-property lookup in a parsed object; the first binding of a key is the
    one the object holds. *)
Fixpoint own_prop (k : string) (fields : list (string * JsVal)) : JsVal :=
  match fields with
  | [] => JUndefined
  | (k', v) :: rest => if String.eqb k k' then v else own_prop k rest
  end.

(** [v.k] for the two property names the server reads off a payload value,
    [title] and [artist]: [None] is the TypeError raised on [undefined] and
    [null]; primitives and arrays have no such property. *)
Definition get_prop (v : JsVal) (k : string) : option JsVal :=
  match v with
  | JUndefined | JNull => None
  | JObj fields => Some (own_prop k fields)
  | JBool _ | JNum _ | JStr _ | JArr _ => Some JUndefined
  end.

(** A number that is greater than or equal to zero ([-0] included, [NaN] not). *)
Definition nonneg_number (v : JsVal) : bool :=
  match v with
  | JNum x => PrimFloat.leb 0%float x
  | _ => false
  end.

(** ** Data model *)

(** The profile pushed on [room.users]. *)
Record User : Type := mkUser {
  u_id : string;
  u_username : string;
  u_avatar : string;
  u_isTyping : JsVal
}.

(** The value stored in [users]: [{ ...user, roomCode }]. *)
Record Session : Type := mkSession {
  s_id : string;
  s_username : string;
  s_avatar : string;
  s_isTyping : JsVal;
  s_roomCode : string
}.

Record Message : Type := mkMessage {
  m_id : float;
  m_username : string;
  m_avatar : string;
  m_text : JsVal;
  m_timestamp : string
}.

Record Song : Type := mkSong {
  sg_id : JsVal;
  sg_title : JsVal;
  sg_artist : JsVal;
  sg_duration : JsVal;
  sg_addedBy : string;
  sg_url : JsVal
}.

Record Room : Type := mkRoom {
  r_code : string;
  r_users : list User;
  r_messages : list Message;
  r_playlist : list Song;
  r_currentSong : JsVal;
  r_isPlaying : JsVal;
  r_currentTime : JsVal
}.

(** The server state: [rooms], [users], and socket.io's record of which
    rooms every connected socket has joined ([socket.join]); socket.io
    empties the latter for a socket before its [disconnect] handler runs.
    The room socket.io opens for every socket under the socket's own id is
    left out: a room code has at most six characters, a socket id twenty. *)
Record ServerState : Type := mkState {
  rooms : gmap string Room;
  users : gmap string Session;
  joined : gmap string (gset string)
}.

Definition init : ServerState := mkState ∅ ∅ ∅.

(** ** Outbound events *)

Inductive Outbound : Type :=
| RoomCreated (roomCode : string)
| RoomError (message : string)
| RoomJoined (room : Room)
| UserJoined (user : User)
| UsersUpdated (us : list User)
| NewMessage (message : Message)
| UserTyping (userId username : string) (isTyping : JsVal)
| PlaylistUpdated (playlist : list Song)
| MusicSync (isPlaying currentTime : JsVal) (timestamp : float)
| SongChanged (song isPlaying currentTime : JsVal)
| UserLeft (userId : string).

(** [socket.emit], [io.to(room).emit] and [socket.to(room).emit]. *)
Inductive Target : Type :=
| ToSocket (sid : string)
| ToRoom (room : string)
| ToRoomExcept (room sid : string).

Definition Emission : Type := Target * Outbound.

Definition rooms_of (st : ServerState) (sid : string) : gset string :=
  default ∅ (joined st !! sid).

Definition in_room (st : ServerState) (room sid : string) : bool :=
  bool_decide (room ∈ rooms_of st sid).

(** Does connection [c] receive an emission addressed to [t]? *)
Definition receives (st : ServerState) (t : Target) (c : string) : bool :=
  match t with
  | ToSocket sid => bool_decide (c = sid)
  | ToRoom room => in_room st room c
  | ToRoomExcept room sid => in_room st room c && negb (bool_decide (c = sid))
  end.

(** ** Inbound events *)

(** What the environment supplies to one handler run: [Date.now()],
    [new Date().toISOString()] and [Math.random().toString(36)]. *)
Record Env : Type := mkEnv {
  now : float;
  iso : string;
  rnd : string
}.

(** The payload [data] of an event is an object; a field it lacks reads as
    [undefined].  [roomCode] and [username] are strings, as the client sends
    them; every other field is an arbitrary value. *)
Inductive Event : Type :=
| CreateRoom
| JoinRoom (roomCode username : string)
| SendMessage (text : JsVal)
| Typing (isTyping : JsVal)
| AddSong (id title artist duration url : JsVal)
| MusicControl (isPlaying currentTime : JsVal)
| SelectSong (song : JsVal)
| Disconnect.

Record Inbound : Type := mkInbound {
  sender : string;
  env : Env;
  event : Event
}.

Inductive Completion : Type := Returned | Threw.

Record Outcome : Type := mkOutcome {
  after : ServerState;
  outbox : list Emission;
  completion : Completion
}.

(** ** Utilities *)

Definition upper_ascii (c : ascii) : ascii :=
  let n := nat_of_ascii c in
  if (97 <=? n)%nat && (n <=? 122)%nat then ascii_of_nat (n - 32) else c.

Fixpoint toUpperCase (s : string) : string :=
  match s with
  | EmptyString => EmptyString
  | String c s' => String (upper_ascii c) (toUpperCase s')
  end.

(** [Math.random().toString(36).substring(2, 8).toUpperCase()], on the base-36
    text [r] of the random draw. *)
Definition generateRoomCode (r : string) : string :=
  toUpperCase (String.substring 2 6 r).

Definition colors : list string :=
  [ "#8B5CF6"; "#EC4899"; "#3B82F6"; "#10B981"; "#F59E0B";
    "#EF4444"; "#6366F1"; "#8B5A2B"; "#059669"; "#DC2626" ].

(** ToInt32: reduction modulo 2^32 into the signed range. *)
Definition ToInt32 (z : Z) : Z :=
  let m := (z mod 2 ^ 32)%Z in
  if (m <? 2 ^ 31)%Z then m else (m - 2 ^ 32)%Z.

(** One round of the loop: [hash = code + ((hash << 5) - hash)]; only the
    shift works on 32 bits.  [charCodeAt] is the code of the character: names
    are read as strings of one-byte characters. *)
Definition hash_step (hash : Z) (c : ascii) : Z :=
  (Z.of_nat (nat_of_ascii c) + (ToInt32 (Z.shiftl (ToInt32 hash) 5) - hash))%Z.

Fixpoint hash_from (hash : Z) (s : string) : Z :=
  match s with
  | EmptyString => hash
  | String c s' => hash_from (hash_step hash c) s'
  end.

Definition getAvatarColor (username : string) : string :=
  let hash := hash_from 0 username in
  nth (Z.to_nat (Z.abs hash mod 10)) colors "".

Arguments getAvatarColor : simpl never.

(** ** State updates *)

Definition set_rooms (st : ServerState) (rs : gmap string Room) : ServerState :=
  mkState rs (users st) (joined st).

Definition set_users (r : Room) (us : list User) : Room :=
  mkRoom (r_code r) us (r_messages r) (r_playlist r)
         (r_currentSong r) (r_isPlaying r) (r_currentTime r).

(** [room.messages.push(message)] *)
Definition push_message (r : Room) (m : Message) : Room :=
  mkRoom (r_code r) (r_users r) (r_messages r ++ [m]) (r_playlist r)
         (r_currentSong r) (r_isPlaying r) (r_currentTime r).

(** [room.playlist.push(song)] *)
Definition push_song (r : Room) (s : Song) : Room :=
  mkRoom (r_code r) (r_users r) (r_messages r) (r_playlist r ++ [s])
         (r_currentSong r) (r_isPlaying r) (r_currentTime r).

Definition set_playback (r : Room) (playing time : JsVal) : Room :=
  mkRoom (r_code r) (r_users r) (r_messages r) (r_playlist r)
         (r_currentSong r) playing time.

Definition set_currentSong (r : Room) (song : JsVal) : Room :=
  mkRoom (r_code r) (r_users r) (r_messages r) (r_playlist r)
         song (r_isPlaying r) (r_currentTime r).

Definition set_isTyping (u : User) (v : JsVal) : User :=
  mkUser (u_id u) (u_username u) (u_avatar u) v.

Definition session_of (u : User) (roomCode : string) : Session :=
  mkSession (u_id u) (u_username u) (u_avatar u) (u_isTyping u) roomCode.

Definition system_message (e : Env) (text : string) : Message :=
  mkMessage (now e) "System" "#6366F1" (JStr text) (iso e).

Definition dquote : string := String (ascii_of_nat 34) EmptyString.

(** [socket.join(room)] *)
Definition socket_join (st : ServerState) (sid room : string) : gmap string (gset string) :=
  <[sid := {[room]} ∪ rooms_of st sid]> (joined st).

(** ** The handlers *)

Section Server.

(** ECMAScript ToString, as a template literal applies it to a payload value;
    [None] when the conversion throws. *)
Variable ToString : JsVal → option string.

Definition create_room (sid : string) (e : Env) (st : ServerState) : Outcome :=
  let roomCode := generateRoomCode (rnd e) in
  let room := mkRoom roomCode [] [] [] JNull (JBool false) (JNum 0%float) in
  mkOutcome (set_rooms st (<[roomCode := room]> (rooms st)))
            [(ToSocket sid, RoomCreated roomCode)]
            Returned.

Definition join_room (sid : string) (e : Env) (roomCode username : string)
    (st : ServerState) : Outcome :=
  match rooms st !! roomCode with
  | None => mkOutcome st [(ToSocket sid, RoomError "Room not found")] Returned
  | Some room =>
      let user := mkUser sid username (getAvatarColor username) (JBool false) in
      let users' := <[sid := session_of user roomCode]> (users st) in
      let room1 := set_users room (r_users room ++ [user]) in
      let joined' := socket_join st sid roomCode in
      let snapshot :=
        mkRoom roomCode (r_users room1) (r_messages room1) (r_playlist room1)
               (r_currentSong room1) (r_isPlaying room1) (r_currentTime room1) in
      let welcomeMessage :=
        system_message e ("ðŸ‘‹ " ++ username ++ " joined the room") in
      let room2 := push_message room1 welcomeMessage in
      mkOutcome (mkState (<[roomCode := room2]> (rooms st)) users' joined')
                [ (ToSocket sid, RoomJoined snapshot);
                  (ToRoomExcept roomCode sid, UserJoined user);
                  (ToRoom roomCode, UsersUpdated (r_users room1));
                  (ToRoom roomCode, NewMessage welcomeMessage) ]
                Returned
  end.

Definition send_message (sid : string) (e : Env) (text : JsVal)
    (st : ServerState) : Outcome :=
  match users st !! sid with
  | None => mkOutcome st [] Returned
  | Some user =>
      let message :=
        mkMessage (now e) (s_username user) (s_avatar user) text (iso e) in
      match rooms st !! s_roomCode user with
      | Some room =>
          mkOutcome
            (set_rooms st (<[s_roomCode user := push_message room message]> (rooms st)))
            [(ToRoom (s_roomCode user), NewMessage message)]
            Returned
      | None => mkOutcome st [] Returned
      end
  end.

Definition typing (sid : string) (isTyping : JsVal) (st : ServerState) : Outcome :=
  match users st !! sid with
  | None => mkOutcome st [] Returned
  | Some user =>
      match rooms st !! s_roomCode user with
      | Some room =>
          match list_find (λ u, u_id u = sid) (r_users room) with
          | Some (i, roomUser) =>
              let us := <[i := set_isTyping roomUser isTyping]> (r_users room) in
              mkOutcome
                (set_rooms st (<[s_roomCode user := set_users room us]> (rooms st)))
                [(ToRoomExcept (s_roomCode user) sid,
                  UserTyping sid (s_username user) isTyping)]
                Returned
          | None => mkOutcome st [] Returned
          end
      | None => mkOutcome st [] Returned
      end
  end.

Definition add_song (sid : string) (e : Env) (id title artist duration url : JsVal)
    (st : ServerState) : Outcome :=
  match users st !! sid with
  | None => mkOutcome st [] Returned
  | Some user =>
      match rooms st !! s_roomCode user with
      | Some room =>
          let song :=
            mkSong (js_or id (JNum (now e))) title
                   (js_or artist (JStr "Unknown Artist"))
                   (js_or duration (JStr "0:00"))
                   (s_username user) url in
          let room1 := push_song room song in
          mkOutcome (set_rooms st (<[s_roomCode user := room1]> (rooms st)))
                    [(ToRoom (s_roomCode user), PlaylistUpdated (r_playlist room1))]
                    Returned
      | None => mkOutcome st [] Returned
      end
  end.

Definition music_control (sid : string) (e : Env) (isPlaying currentTime : JsVal)
    (st : ServerState) : Outcome :=
  match users st !! sid with
  | None => mkOutcome st [] Returned
  | Some user =>
      match rooms st !! s_roomCode user with
      | Some room =>
          let room1 :=
            set_playback room isPlaying (js_or currentTime (JNum 0%float)) in
          mkOutcome (set_rooms st (<[s_roomCode user := room1]> (rooms st)))
                    [(ToRoomExcept (s_roomCode user) sid,
                      MusicSync (r_isPlaying room1) (r_currentTime room1) (now e))]
                    Returned
      | None => mkOutcome st [] Returned
      end
  end.

(** The text of the system message of [select-song]; [None] when reading
    [data.song.title] or [data.song.artist], or converting them, throws. *)
Definition selected_text (username : string) (song : JsVal) : option string :=
  title ← get_prop song "title" ≫= ToString;
  artist ← get_prop song "artist" ≫= ToString;
  Some ("ðŸŽµ " ++ username ++ " selected " ++ dquote ++ title ++ dquote
          ++ " by " ++ artist).

Definition select_song (sid : string) (e : Env) (song : JsVal)
    (st : ServerState) : Outcome :=
  match users st !! sid with
  | None => mkOutcome st [] Returned
  | Some user =>
      match rooms st !! s_roomCode user with
      | Some room =>
          let room1 :=
            set_playback (set_currentSong room song) (JBool false) (JNum 0%float) in
          let changed :=
            (ToRoom (s_roomCode user),
             SongChanged (r_currentSong room1) (JBool false) (JNum 0%float)) in
          match selected_text (s_username user) song with
          | Some text =>
              let message := system_message e text in
              mkOutcome
                (set_rooms st
                   (<[s_roomCode user := push_message room1 message]> (rooms st)))
                [changed; (ToRoom (s_roomCode user), NewMessage message)]
                Returned
          | None =>
              mkOutcome (set_rooms st (<[s_roomCode user := room1]> (rooms st)))
                        [changed]
                        Threw
          end
      | None => mkOutcome st [] Returned
      end
  end.

(** socket.io takes the socket out of every room it joined, then runs the
    handler. *)
Definition disconnect (sid : string) (e : Env) (st : ServerState) : Outcome :=
  let joined' := delete sid (joined st) in
  match users st !! sid with
  | Some user =>
      match rooms st !! s_roomCode user with
      | Some room =>
          let room1 :=
            set_users room (filter (λ u, u_id u ≠ sid) (r_users room)) in
          let message :=
            system_message e ("ðŸ‘‹ " ++ s_username user ++ " left the room") in
          let room2 := push_message room1 message in
          let rooms' :=
            if bool_decide (length (r_users room2) = 0%nat)
            then delete (s_roomCode user) (<[s_roomCode user := room2]> (rooms st))
            else <[s_roomCode user := room2]> (rooms st) in
          mkOutcome (mkState rooms' (delete sid (users st)) joined')
                    [ (ToRoomExcept (s_roomCode user) sid, UserLeft sid);
                      (ToRoom (s_roomCode user), UsersUpdated (r_users room1));
                      (ToRoom (s_roomCode user), NewMessage message) ]
                    Returned
      | None =>
          mkOutcome (mkState (rooms st) (delete sid (users st)) joined') [] Returned
      end
  | None => mkOutcome (mkState (rooms st) (users st) joined') [] Returned
  end.

(** The dispatch of [io.on('connection', ...)]'s listeners. *)
Definition handle (st : ServerState) (i : Inbound) : Outcome :=
  match event i with
  | CreateRoom => create_room (sender i) (env i) st
  | JoinRoom roomCode username => join_room (sender i) (env i) roomCode username st
  | SendMessage text => send_message (sender i) (env i) text st
  | Typing isTyping => typing (sender i) isTyping st
  | AddSong id title artist duration url =>
      add_song (sender i) (env i) id title artist duration url st
  | MusicControl isPlaying currentTime =>
      music_control (sender i) (env i) isPlaying currentTime st
  | SelectSong song => select_song (sender i) (env i) song st
  | Disconnect => disconnect (sender i) (env i) st
  end.

(** Events are handled one at a time, each to completion. *)
Definition run (st : ServerState) (trace : list Inbound) : ServerState :=
  foldl (λ s i, after (handle s i)) st trace.

(** The states the server can be in after handling events each of which
    satisfied [ok] in the state it arrived in. *)
Inductive reachable_by (ok : ServerState → Inbound → Prop) : ServerState → Prop :=
| reach_init : reachable_by ok init
| reach_step st i :
    reachable_by ok st → ok st i → reachable_by ok (after (handle st i)).

Definition reachable : ServerState → Prop := reachable_by (λ _ _, True).

End Server.

(** ** Predicates used by the statements *)

(** The events that are scoped to the sender's room. *)
Definition room_scoped (ev : Event) : bool :=
  match ev with
  | SendMessage _ | Typing _ | AddSong _ _ _ _ _ | MusicControl _ _
  | SelectSong _ => true
  | CreateRoom | JoinRoom _ _ | Disconnect => false
  end.

(** The three playback fields of a room. *)
Definition playback (r : Room) : JsVal * JsVal * JsVal :=
  (r_currentSong r, r_isPlaying r, r_currentTime r).

(** A [music-control] payload whose [currentTime] is a number that is not
    negative, or a falsy value (which the handler replaces by 0). *)
Definition time_in_range (st : ServerState) (i : Inbound) : Prop :=
  match event i with
  | MusicControl _ currentTime =>
      truthy currentTime = false ∨ nonneg_number currentTime = true
  | _ => True
  end.

(** An event sequence is regular when [join-room] only comes from connections
    that have no session yet, and [create-room] never draws the code of a
    room that is live. *)
Definition regular (st : ServerState) (i : Inbound) : Prop :=
  match event i with
  | CreateRoom => rooms st !! generateRoomCode (rnd (env i)) = None
  | JoinRoom _ _ => users st !! sender i = None
  | _ => True
  end.

Definition ids (r : Room) : list string := u_id <$> r_users r.

(** What a member profile and a session have in common. *)
Definition profile_of (sess : Session) (u : User) : Prop :=
  s_id sess = u_id u ∧ s_username sess = u_username u ∧ s_avatar sess = u_avatar u.

(** A song of the playlist as a payload value, the way [playlist-updated]
    hands it to the clients. *)
Definition song_value (s : Song) : JsVal :=
  JObj [ ("id", sg_id s); ("title", sg_title s); ("artist", sg_artist s);
         ("duration", sg_duration s); ("addedBy", JStr (sg_addedBy s));
         ("url", sg_url s) ].

(** The part of a member profile that no handler changes after the join. *)
Definition profile (u : User) : string * string * string :=
  (u_id u, u_username u, u_avatar u).

(** The member [u] of the room [code] has a session, and it is bound to
    that room. *)
Definition bound_member (us : gmap string Session) (code : string) (u : User) : Prop :=
  ∃ sess, us !! u_id u = Some sess ∧ s_roomCode sess = code ∧ profile_of sess u.

Definition members_ok (us : gmap string Session) (code : string) (room : Room) : Prop :=
  NoDup (ids room) ∧ ∀ u, u ∈ r_users room → bound_member us code u.

(** Every session is listed in the room it is bound to. *)
Definition sessions_ok (st : ServerState) : Prop :=
  ∀ sid sess, users st !! sid = Some sess →
    ∃ room, rooms st !! s_roomCode sess = Some room ∧ sid ∈ ids room.

(** A connection has joined the room of its session and no other. *)
Definition fanout_ok (st : ServerState) : Prop :=
  joined st = (λ sess, {[s_roomCode sess]}) <$> users st.

Definition consistent (st : ServerState) : Prop :=
  map_Forall (members_ok (users st)) (rooms st) ∧ sessions_ok st ∧ fanout_ok st.

(** A stand-in for ToString to run the model on examples: exact on
    [undefined], [null], booleans and strings; numbers, arrays and objects,
    which no example below converts, are all printed as [object Object]. *)
Definition ToString_sample (v : JsVal) : option string :=
  match v with
  | JUndefined => Some "undefined"
  | JNull => Some "null"
  | JBool true => Some "true"
  | JBool false => Some "false"
  | JStr s => Some s
  | JNum _ | JArr _ | JObj _ => Some "[object Object]"
  end.

(** ** Sample inputs: scenario A of the specification *)

Definition env0 : Env := mkEnv 1700000000000%float "2023-11-14T22:13:20.000Z" "0.ab12cdxyz".

Definition create_by (sid : string) : Inbound := mkInbound sid env0 CreateRoom.

Definition join_by (sid roomCode username : string) : Inbound :=
  mkInbound sid env0 (JoinRoom roomCode username).

(** Ann created room AB12CD and joined it. *)
Definition ann_in_room : ServerState :=
  run ToString_sample init [create_by "s1"; join_by "s1" "AB12CD" "Ann"].

Definition ann_profile : User := mkUser "s1" "Ann" "#EF4444" (JBool false).

Definition ann_joined_message : Message :=
  system_message env0 "ðŸ‘‹ Ann joined the room".

Definition ann_session : Session :=
  mkSession "s1" "Ann" "#EF4444" (JBool false) "AB12CD".

Definition ann_room : Room :=
  mkRoom "AB12CD" [ann_profile] [ann_joined_message] [] JNull (JBool false)
         (JNum 0%float).

(** A second draw of the generator. *)
Definition env1 : Env := mkEnv 1700000000500%float "2023-11-14T22:13:20.500Z" "0.zz99zzk".

(** Two empty rooms, AB12CD and ZZ99ZZ. *)
Definition two_rooms : ServerState :=
  run ToString_sample init [create_by "s1"; mkInbound "s2" env1 CreateRoom].

(** The same connection joined AB12CD and then ZZ99ZZ. *)
Definition ann_joined_twice : ServerState :=
  run ToString_sample two_rooms
      [join_by "s1" "AB12CD" "Ann"; join_by "s1" "ZZ99ZZ" "Ann"].

(** A song payload that was never added to a playlist. *)
Definition stray_song : JsVal := JObj [("title", JStr "T"); ("artist", JStr "A")].

(** Bo joined Ann in AB12CD. *)
Definition ann_and_bo : ServerState :=
  run ToString_sample ann_in_room [mkInbound "s2" env1 (JoinRoom "AB12CD" "Bo")].

(** Ann started playback at 12.5 seconds. *)
Definition ann_playing : ServerState :=
  run ToString_sample ann_in_room
      [mkInbound "s1" env1 (MusicControl (JBool true) (JNum 12.5%float))].

(** Every event of [trace] satisfies [ok] in the state it arrives in. *)
Fixpoint all_ok (ToString : JsVal → option string)
    (ok : ServerState → Inbound → Prop) (st : ServerState)
    (trace : list Inbound) : Prop :=
  match trace with
  | [] => True
  | i :: rest => ok st i ∧ all_ok ToString ok (after (handle ToString st i)) rest
  end.

(** ** The client's view of the room ([src/App.tsx])

    The state a page keeps about its room: [room], [roomCode] and
    [typingUsers], and what the listeners the page registers on its socket
    do to it. *)

Record ClientView : Type := mkView {
  c_room : option Room;
  c_roomCode : string;
  c_typingUsers : list string
}.

(** [setRoom(prev => prev ? f(prev) : null)] *)
Definition update_room (f : Room → Room) (v : ClientView) : ClientView :=
  mkView (f <$> c_room v) (c_roomCode v) (c_typingUsers v).

Definition set_playlist (r : Room) (playlist : list Song) : Room :=
  mkRoom (r_code r) (r_users r) (r_messages r) playlist
         (r_currentSong r) (r_isPlaying r) (r_currentTime r).

(** The listener of each event. *)
Definition client_on (v : ClientView) (ev : Outbound) : ClientView :=
  match ev with
  | RoomCreated roomCode => mkView (c_room v) roomCode (c_typingUsers v)
  | RoomJoined room => mkView (Some room) (c_roomCode v) (c_typingUsers v)
  | RoomError _ => v
  | NewMessage message => update_room (λ prev, push_message prev message) v
  | UserJoined user =>
      update_room (λ prev, set_users prev (r_users prev ++ [user])) v
  | UserLeft userId =>
      update_room
        (λ prev, set_users prev (filter (λ u, u_id u ≠ userId) (r_users prev))) v
  | UsersUpdated us => update_room (λ prev, set_users prev us) v
  | UserTyping _ username isTyping =>
      let others := filter (λ u, u ≠ username) (c_typingUsers v) in
      mkView (c_room v) (c_roomCode v)
             (if truthy isTyping then others ++ [username] else others)
  | PlaylistUpdated playlist => update_room (λ prev, set_playlist prev playlist) v
  | SongChanged song isPlaying currentTime =>
      update_room
        (λ prev, set_playback (set_currentSong prev song) isPlaying currentTime) v
  | MusicSync isPlaying currentTime _ =>
      update_room (λ prev, set_playback prev isPlaying currentTime) v
  end.

(** [toggleMusic]: the event the play button sends, if any; [audioTime] is
    [audioRef.current?.currentTime]. *)
Definition toggleMusic (v : ClientView) (audioTime : JsVal) : option Event :=
  match c_room v with
  | Some room =>
      if truthy (r_currentSong room)
      then Some (MusicControl (JBool (negb (truthy (r_isPlaying room))))
                              (js_or audioTime (JNum 0%float)))
      else None
  | None => None
  end.

(** *** What a page receives

    socket.io sends the payload of an event as JSON text, so a page's listener
    gets [JSON.parse(JSON.stringify(payload))]: a number that is not finite
    has become [null], [-0] has become [0], an [undefined] element of an array
    has become [null], and a property whose value is [undefined] is gone. *)

Definition json_num (x : float) : JsVal :=
  if PrimFloat.is_finite x
  then JNum (if PrimFloat.is_zero x then 0%float else x)
  else JNull.

(** The value as the receiver reads it.  At the top, [undefined] is the value
    of a property of the payload: the property is left out and reads as
    [undefined] again.  Of the bindings of a key in [JObj] only the first,
    the one the object holds, is written. *)
Fixpoint json (v : JsVal) : JsVal :=
  match v with
  | JUndefined => JUndefined
  | JNull => JNull
  | JBool b => JBool b
  | JNum x => json_num x
  | JStr s => JStr s
  | JArr elems =>
      JArr ((fix elements (l : list JsVal) : list JsVal :=
               match l with
               | [] => []
               | x :: rest =>
                   match json x with
                   | JUndefined => JNull
                   | w => w
                   end :: elements rest
               end) elems)
  | JObj fields =>
      JObj ((fix properties (seen : list string) (l : list (string * JsVal))
               : list (string * JsVal) :=
               match l with
               | [] => []
               | (k, x) :: rest =>
                   if existsb (String.eqb k) seen then properties seen rest
                   else match json x with
                        | JUndefined => properties (k :: seen) rest
                        | w => (k, w) :: properties (k :: seen) rest
                        end
               end) [] fields)
  end.

(** A number read off the clock ([Date.now()]): it is finite, so that JSON
    keeps it but for the sign of zero. *)
Definition json_clock (x : float) : float :=
  if PrimFloat.is_zero x then 0%float else x.

Definition json_user (u : User) : User :=
  mkUser (u_id u) (u_username u) (u_avatar u) (json (u_isTyping u)).

Definition json_message (m : Message) : Message :=
  mkMessage (json_clock (m_id m)) (m_username m) (m_avatar m) (json (m_text m))
            (m_timestamp m).

Definition json_song (s : Song) : Song :=
  mkSong (json (sg_id s)) (json (sg_title s)) (json (sg_artist s))
         (json (sg_duration s)) (sg_addedBy s) (json (sg_url s)).

Definition json_room (r : Room) : Room :=
  mkRoom (r_code r) (json_user <$> r_users r) (json_message <$> r_messages r)
         (json_song <$> r_playlist r) (json (r_currentSong r))
         (json (r_isPlaying r)) (json (r_currentTime r)).

(** The event as it arrives. *)
Definition json_out (ev : Outbound) : Outbound :=
  match ev with
  | RoomCreated roomCode => RoomCreated roomCode
  | RoomError message => RoomError message
  | RoomJoined room => RoomJoined (json_room room)
  | UserJoined user => UserJoined (json_user user)
  | UsersUpdated us => UsersUpdated (json_user <$> us)
  | NewMessage message => NewMessage (json_message message)
  | UserTyping userId username isTyping =>
      UserTyping userId username (json isTyping)
  | PlaylistUpdated playlist => PlaylistUpdated (json_song <$> playlist)
  | MusicSync isPlaying currentTime timestamp =>
      MusicSync (json isPlaying) (json currentTime) (json_clock timestamp)
  | SongChanged song isPlaying currentTime =>
      SongChanged (json song) (json isPlaying) (json currentTime)
  | UserLeft userId => UserLeft userId
  end.

(** The view of the page behind connection [c] after the events one handler
    run emitted, delivered in the order of emission. *)
Definition client_step (c : string) (o : Outcome) (v : ClientView) : ClientView :=
  foldl (λ v em,
           if receives (after o) em.1 c then client_on v (json_out em.2) else v)
        v (outbox o).

(** The clock of the event gave a finite number, as [Date.now()] does. *)
Definition clock_finite (st : ServerState) (i : Inbound) : Prop :=
  PrimFloat.is_finite (now (env i)) = true.

(** Regular event sequences, with the clock as it is. *)
Definition regular_timed (st : ServerState) (i : Inbound) : Prop :=
  regular st i ∧ clock_finite st i.

(** The server together with the views of the pages behind the connections;
    the views the pages start from are arbitrary. *)
Inductive system_by (ToString : JsVal → option string)
    (ok : ServerState → Inbound → Prop) :
    ServerState → (string → ClientView) → Prop :=
| system_init vs : system_by ToString ok init vs
| system_step st vs i :
    system_by ToString ok st vs → ok st i →
    system_by ToString ok (after (handle ToString st i))
              (λ c, client_step c (handle ToString st i) (vs c)).

(** The view shows the room, as far as JSON carries it, in everything but
    the typing flags and the playhead. *)
Definition view_matches (code : string) (view room : Room) : Prop :=
  r_code view = code ∧
  r_messages view = json_message <$> r_messages room ∧
  r_playlist view = json_song <$> r_playlist room ∧
  r_currentSong view = json (r_currentSong room) ∧
  profile <$> r_users view = profile <$> r_users room.

Definition in_sync (st : ServerState) (vs : string → ClientView) : Prop :=
  ∀ c sess, users st !! c = Some sess →
    ∃ room view, rooms st !! s_roomCode sess = Some room ∧
      c_room (vs c) = Some view ∧ view_matches (s_roomCode sess) view room.

(** [s.split(sep)] for a separator of one character. *)
Fixpoint split_on (sep : ascii) (s : string) : list string :=
  match s with
  | EmptyString => [EmptyString]
  | String c s' =>
      if Ascii.eqb c sep then EmptyString :: split_on sep s'
      else match split_on sep s' with
           | w :: ws => String c w :: ws
           | [] => [String c EmptyString]
           end
  end.

(** [n[0]] as [join] prints it: the first character, nothing for the
    [undefined] of an empty word. *)
Definition first_char (n : string) : string :=
  match n with
  | EmptyString => EmptyString
  | String c _ => String c EmptyString
  end.

(** [getInitials]:
    [name.split(' ').map(n => n[0]).join('').toUpperCase().slice(0, 2)], for
    names of ASCII characters, on which [toUpperCase] is the function above. *)
Definition getInitials (name : string) : string :=
  String.substring 0 2
    (toUpperCase (String.concat "" (first_char <$> split_on " "%char name))).

Fixpoint ascii_only (s : string) : bool :=
  match s with
  | EmptyString => true
  | String c s' => (nat_of_ascii c <? 128)%nat && ascii_only s'
  end.

(** The first character of a word, if it has one. *)
Definition first_letter (n : string) : option ascii :=
  match n with
  | EmptyString => None
  | String c _ => Some c
  end.

(** The views of all pages after the events of [trace]. *)
Fixpoint views_run (ToString : JsVal → option string) (st : ServerState)
    (vs : string → ClientView) (trace : list Inbound) : string → ClientView :=
  match trace with
  | [] => vs
  | i :: rest =>
      views_run ToString (after (handle ToString st i))
                (λ c, client_step c (handle ToString st i) (vs c)) rest
  end.

(** ** More sample inputs *)

(** Pages that show no room yet. *)
Definition no_views : string → ClientView := λ _, mkView None "" [].

Definition bo_profile : User := mkUser "s2" "Bo" (getAvatarColor "Bo") (JBool false).

Definition bo_session : Session :=
  mkSession "s2" "Bo" (getAvatarColor "Bo") (JBool false) "AB12CD".

Definition bo_joined_message : Message :=
  system_message env1 "ðŸ‘‹ Bo joined the room".

Definition ann_and_bo_room : Room :=
  mkRoom "AB12CD" [ann_profile; bo_profile]
         [ann_joined_message; bo_joined_message] [] JNull (JBool false)
         (JNum 0%float).

Definition hi_message : Message :=
  mkMessage (now env1) "Ann" "#EF4444" (JStr "hi") (iso env1).

(** The views of the pages of Ann and Bo once both are in the room. *)
Definition ann_and_bo_views : string → ClientView :=
  views_run ToString_sample ann_in_room
    (views_run ToString_sample init no_views
       [create_by "s1"; join_by "s1" "AB12CD" "Ann"])
    [mkInbound "s2" env1 (JoinRoom "AB12CD" "Bo")].

(** Ann selected a song. *)
Definition song_selected : ServerState :=
  run ToString_sample ann_and_bo [mkInbound "s1" env1 (SelectSong stray_song)].

Definition song_selected_views : string → ClientView :=
  views_run ToString_sample ann_and_bo ann_and_bo_views
    [mkInbound "s1" env1 (SelectSong stray_song)].

(** Ann added a song and gave neither an artist nor a duration. *)
Definition song_added : ServerState :=
  run ToString_sample ann_in_room
      [mkInbound "s1" env1
         (AddSong JUndefined (JStr "T") (JStr "") JUndefined (JStr "blob:1"))].

Definition added_song : Song :=
  mkSong (JNum (now env1)) (JStr "T") (JStr "Unknown Artist") (JStr "0:00")
         "Ann" (JStr "blob:1").

(** The connection that joined two rooms has disconnected. *)
Definition ann_gone : ServerState :=
  run ToString_sample ann_joined_twice [mkInbound "s1" env1 Disconnect].

(** After the same connection joined AB12CD and then ZZ99ZZ, the code AB12CD
    is drawn again and Bo joins the room it now names. *)
Definition bo_in_redrawn_room : ServerState :=
  run ToString_sample ann_joined_twice
      [create_by "s3"; mkInbound "s2" env1 (JoinRoom "AB12CD" "Bo")].

(** * Properties *)

Section Properties.

Variable ToString : JsVal → option string.


(** C7 (RoomNotFound atomicity). A [join-room] whose code matches no live room
    leaves the whole server state as it was and emits exactly one event, the
    [room-error] addressed to the requesting socket, which no other connection
    receives. *)
Theorem join_unknown_room_is_atomic (st : ServerState) (sid : string) (e : Env)
    (roomCode username : string) :
  rooms st !! roomCode = None →
  let o := handle ToString st (mkInbound sid e (JoinRoom roomCode username)) in
  after o = st ∧
  outbox o = [(ToSocket sid, RoomError "Room not found")] ∧
  completion o = Returned ∧
  ∀ t ev c, (t, ev) ∈ outbox o → c ≠ sid → receives (after o) t c = false.
Proof.
  intros Hnone. cbn. unfold join_room. rewrite Hnone. cbn.
  repeat split.
  intros t ev c Hin Hc. apply list_elem_of_singleton in Hin.
  injection Hin as -> ->. cbn. by apply bool_decide_eq_false_2.
Qed.

(** C8 (orphan events). A room-scoped event ([send-message], [typing],
    [add-song], [music-control], [select-song]) from a connection that has no
    session changes nothing, emits nothing and raises nothing. *)
Theorem orphan_event_is_dropped (st : ServerState) (sid : string) (e : Env)
    (ev : Event) :
  room_scoped ev = true →
  users st !! sid = None →
  handle ToString st (mkInbound sid e ev) = mkOutcome st [] Returned.
Proof.
  intros Hscoped Hnone.
  destruct ev; try discriminate Hscoped; cbn;
    [ unfold send_message | unfold typing | unfold add_song
    | unfold music_control | unfold select_song ];
    by rewrite Hnone.
Qed.

(** What [select-song] does to the room of a joined sender. *)
Lemma select_song_room (st : ServerState) (sid : string) (e : Env) (song : JsVal)
    (user : Session) (room : Room) :
  users st !! sid = Some user →
  rooms st !! s_roomCode user = Some room →
  let st' := after (handle ToString st (mkInbound sid e (SelectSong song))) in
  users st' = users st ∧
  ∃ room', rooms st' = <[s_roomCode user := room']> (rooms st) ∧
    playback room' = (song, JBool false, JNum 0%float) ∧
    r_playlist room' = r_playlist room.
Proof.
  intros Hu Hr. cbn. unfold select_song. rewrite Hu, Hr.
  destruct (selected_text ToString (s_username user) song); cbn;
    (split; [done|]); eexists; (split; [reflexivity | done]).
Qed.

(** C4 (select-song reset). Whatever the playback fields of the sender's room
    were, one [select-song] leaves [currentSong] equal to the selected song,
    [isPlaying] false and [currentTime] 0; selecting the same song again leaves
    the three fields as they are. *)
Theorem select_song_resets_playback (st : ServerState) (sid : string)
    (e e2 : Env) (song : JsVal) (user : Session) (room : Room) :
  users st !! sid = Some user →
  rooms st !! s_roomCode user = Some room →
  let st' := after (handle ToString st (mkInbound sid e (SelectSong song))) in
  let st'' := after (handle ToString st' (mkInbound sid e2 (SelectSong song))) in
  ∃ room' room'',
    rooms st' !! s_roomCode user = Some room' ∧
    r_currentSong room' = song ∧
    r_isPlaying room' = JBool false ∧
    r_currentTime room' = JNum 0%float ∧
    rooms st'' !! s_roomCode user = Some room'' ∧
    playback room'' = playback room'.
Proof.
  intros Hu Hr st'.
  destruct (select_song_room st sid e song user room Hu Hr)
    as (Hus & room' & Hr' & Hp & _).
  fold st' in Hus, Hr'. rewrite <- Hus in Hu.
  assert (Hl' : rooms st' !! s_roomCode user = Some room')
    by (rewrite Hr'; apply lookup_insert_eq).
  destruct (select_song_room st' sid e2 song user room' Hu Hl')
    as (_ & room'' & Hr'' & Hp' & _).
  exists room', room''. unfold playback in *.
  injection Hp as -> -> ->. rewrite Hp', Hr''.
  repeat split; try done. apply lookup_insert_eq.
Qed.

(** C10 (no playlist check). [select-song] stores the payload as [currentSong]
    without looking at any playlist: when the selected value occurs in no
    room's playlist, the sender's room still gets it as its current song, and
    it still occurs in no playlist afterwards. *)
Theorem select_song_ignores_playlist (st : ServerState) (sid : string) (e : Env)
    (song : JsVal) (user : Session) (room : Room) :
  users st !! sid = Some user →
  rooms st !! s_roomCode user = Some room →
  (∀ code r, rooms st !! code = Some r → song ∉ song_value <$> r_playlist r) →
  let st' := after (handle ToString st (mkInbound sid e (SelectSong song))) in
  ∃ room', rooms st' !! s_roomCode user = Some room' ∧
    r_currentSong room' = song ∧
    ∀ code r, rooms st' !! code = Some r → song ∉ song_value <$> r_playlist r.
Proof.
  intros Hu Hr Hout st'.
  destruct (select_song_room st sid e song user room Hu Hr)
    as (_ & room' & Hr' & Hp & Hpl).
  fold st' in Hr'. exists room'. rewrite Hr'.
  split; [apply lookup_insert_eq|]. split; [by injection Hp|].
  intros code r Hl. destruct (decide (s_roomCode user = code)) as [<-|Hne].
  - rewrite lookup_insert_eq in Hl. injection Hl as <-. rewrite Hpl. eauto.
  - rewrite lookup_insert_ne in Hl by done. eauto.
Qed.

(** What [music-control] does for a joined sender. *)
Lemma music_control_outcome (st : ServerState) (sid : string) (e : Env)
    (isPlaying currentTime : JsVal) (user : Session) (room : Room) :
  users st !! sid = Some user →
  rooms st !! s_roomCode user = Some room →
  handle ToString st (mkInbound sid e (MusicControl isPlaying currentTime)) =
    mkOutcome
      (set_rooms st
         (<[s_roomCode user :=
              set_playback room isPlaying (js_or currentTime (JNum 0%float))]>
            (rooms st)))
      [(ToRoomExcept (s_roomCode user) sid,
        MusicSync isPlaying (js_or currentTime (JNum 0%float)) (now e))]
      Returned.
Proof.
  intros Hu Hr. cbn. unfold music_control. by rewrite Hu, Hr.
Qed.

(** C6, as amended (music-control write-through). For a joined sender the
    handler stores the supplied [isPlaying] as it is, and stores the supplied
    [currentTime] as it is when that value is truthy; a falsy [currentTime] is
    stored as 0.  Nothing else about the two values is checked. *)
Theorem music_control_writes_through (st : ServerState) (sid : string) (e : Env)
    (isPlaying currentTime : JsVal) (user : Session) (room : Room) :
  users st !! sid = Some user →
  rooms st !! s_roomCode user = Some room →
  let st' := after (handle ToString st (mkInbound sid e (MusicControl isPlaying currentTime))) in
  ∃ room', rooms st' !! s_roomCode user = Some room' ∧
    r_isPlaying room' = isPlaying ∧
    r_currentTime room' = (if truthy currentTime then currentTime else JNum 0%float) ∧
    r_currentSong room' = r_currentSong room.
Proof.
  intros Hu Hr st'. subst st'.
  rewrite (music_control_outcome st sid e isPlaying currentTime user room Hu Hr).
  cbn. eexists. split; [apply lookup_insert_eq|]. done.
Qed.

(** A property of the registry entries that every edit a handler makes to a
    room keeps, is kept by every handler. *)
Lemma handle_rooms_forall (Q : string → Room → Prop) (st : ServerState) (i : Inbound) :
  (∀ k r m, Q k r → Q k (push_message r m)) →
  (∀ k r s, Q k r → Q k (push_song r s)) →
  (∀ k r us, event i ≠ Disconnect → Q k r → Q k (set_users r (r_users r ++ us))) →
  (∀ k r n u v, r_users r !! n = Some u → Q k r →
     Q k (set_users r (<[n := set_isTyping u v]> (r_users r)))) →
  (∀ k r sid, Q k r → Q k (set_users r (filter (λ u, u_id u ≠ sid) (r_users r)))) →
  (∀ k r song, Q k r →
     Q k (set_playback (set_currentSong r song) (JBool false) (JNum 0%float))) →
  (∀ code, Q code (mkRoom code [] [] [] JNull (JBool false) (JNum 0%float))) →
  (∀ k r p t, event i = MusicControl p t → Q k r →
     Q k (set_playback r p (js_or t (JNum 0%float)))) →
  map_Forall Q (rooms st) →
  map_Forall Q (rooms (after (handle ToString st i))).
Proof.
  intros Hmsg Hsong Hpush Htyping Hfilter Hsel Hnew Hctl Hall.
  destruct i as [sid e ev]. unfold handle. cbn [event sender env].
  destruct ev; cbn [event] in Hctl, Hpush.
  - cbn. by apply map_Forall_insert_2.
  - unfold join_room. destruct (rooms st !! roomCode) as [room|] eqn:Hr; [|done].
    cbn. apply map_Forall_insert_2; [|done].
    apply Hmsg, Hpush; [done|]. by apply (Hall _ _ Hr).
  - unfold send_message. destruct (users st !! sid) as [user|]; [|done].
    destruct (rooms st !! s_roomCode user) as [room|] eqn:Hr; [|done].
    cbn. apply map_Forall_insert_2; [|done]. apply Hmsg. by apply (Hall _ _ Hr).
  - unfold typing. destruct (users st !! sid) as [user|]; [|done].
    destruct (rooms st !! s_roomCode user) as [room|] eqn:Hr; [|done].
    destruct (list_find _ _) as [[n roomUser]|] eqn:Hfind; [|done].
    cbn. apply map_Forall_insert_2; [|done].
    apply list_find_Some in Hfind as (Hn & _ & _).
    apply Htyping; [done|]. by apply (Hall _ _ Hr).
  - unfold add_song. destruct (users st !! sid) as [user|]; [|done].
    destruct (rooms st !! s_roomCode user) as [room|] eqn:Hr; [|done].
    cbn. apply map_Forall_insert_2; [|done]. apply Hsong. by apply (Hall _ _ Hr).
  - unfold music_control. destruct (users st !! sid) as [user|]; [|done].
    destruct (rooms st !! s_roomCode user) as [room|] eqn:Hr; [|done].
    cbn. apply map_Forall_insert_2; [|done].
    apply Hctl; [done|]. by apply (Hall _ _ Hr).
  - unfold select_song. destruct (users st !! sid) as [user|]; [|done].
    destruct (rooms st !! s_roomCode user) as [room|] eqn:Hr; [|done].
    pose proof (Hall _ _ Hr) as Hq. cbn in Hq.
    destruct (selected_text _ _ _); cbn; (apply map_Forall_insert_2; [|done]).
    + by apply Hmsg, Hsel.
    + by apply Hsel.
  - unfold disconnect. destruct (users st !! sid) as [user|]; [|done].
    destruct (rooms st !! s_roomCode user) as [room|] eqn:Hr; [|done].
    pose proof (Hall _ _ Hr) as Hq. cbn in Hq.
    cbn. case_bool_decide.
    + apply map_Forall_delete, map_Forall_insert_2; [|done].
      by apply Hmsg, Hfilter.
    + apply map_Forall_insert_2; [|done]. by apply Hmsg, Hfilter.
Qed.

(** C5, as amended (playhead range). [create-room] and [select-song] set
    [currentTime] to 0 and [music-control] stores what the client supplied, so
    as long as every [music-control] supplied a number that is not negative
    (or a falsy value, stored as 0), the [currentTime] of every live room is a
    number that is not negative. *)
Theorem current_time_nonnegative (st : ServerState) (code : string) (room : Room) :
  reachable_by ToString time_in_range st →
  rooms st !! code = Some room →
  nonneg_number (r_currentTime room) = true.
Proof.
  intros Hreach. revert code room.
  change (map_Forall (λ (_ : string) r, nonneg_number (r_currentTime r) = true)
            (rooms st)).
  induction Hreach as [|st i _ IH Hok]; [apply map_Forall_empty|].
  apply handle_rooms_forall; try done.
  intros _ r p t Hev Hr. unfold time_in_range in Hok. rewrite Hev in Hok.
  cbn. unfold js_or. destruct Hok as [Hf|Hn].
  - by rewrite Hf.
  - by destruct (truthy t).
Qed.

(** Each room of the registry is stored under its own code. *)
Lemma room_stored_under_its_code (st : ServerState) :
  reachable ToString st → map_Forall (λ k r, r_code r = k) (rooms st).
Proof.
  induction 1 as [|st i _ IH _]; [apply map_Forall_empty|].
  by apply handle_rooms_forall.
Qed.

(** C1, as amended (room-code uniqueness). In every reachable state each live
    room is stored in the registry under its own code, so two distinct live
    rooms always have different codes.  (This is a property of the registry,
    not of the generator: [create-room] does not look at the registry, and a
    code drawn twice replaces the live room that had it.) *)
Theorem live_room_codes_differ (st : ServerState) (k1 k2 : string) (r1 r2 : Room) :
  reachable ToString st →
  rooms st !! k1 = Some r1 →
  rooms st !! k2 = Some r2 →
  r1 ≠ r2 →
  r_code r1 = k1 ∧ r_code r2 = k2 ∧ r_code r1 ≠ r_code r2.
Proof.
  intros Hreach H1 H2 Hne.
  pose proof (room_stored_under_its_code st Hreach) as Hcode.
  rewrite (Hcode _ _ H1), (Hcode _ _ H2). repeat split.
  intros ->. rewrite H1 in H2. by injection H2.
Qed.

(** The session of a connection names a room the connection has joined. *)
Lemma session_room_joined (st : ServerState) (c : string) (sess : Session) :
  reachable ToString st →
  users st !! c = Some sess →
  s_roomCode sess ∈ rooms_of st c.
Proof.
  intros Hreach. revert c sess.
  induction Hreach as [|st [sid e ev] _ IH _]; [by intros c sess; cbn|].
  intros c sess. unfold handle. cbn [event sender env].
  destruct ev.
  - cbn. apply IH.
  - unfold join_room. destruct (rooms st !! roomCode) as [room|]; [|apply IH].
    unfold rooms_of, socket_join. cbn.
    destruct (decide (sid = c)) as [->|Hne].
    + rewrite !lookup_insert_eq. intros [= <-]. cbn. set_solver.
    + rewrite !lookup_insert_ne by done. apply IH.
  - unfold send_message. destruct (users st !! sid) as [user|]; [|apply IH].
    destruct (rooms st !! s_roomCode user); apply IH.
  - unfold typing. destruct (users st !! sid) as [user|]; [|apply IH].
    destruct (rooms st !! s_roomCode user) as [room|]; [|apply IH].
    destruct (list_find _ _) as [[n roomUser]|]; apply IH.
  - unfold add_song. destruct (users st !! sid) as [user|]; [|apply IH].
    destruct (rooms st !! s_roomCode user); apply IH.
  - unfold music_control. destruct (users st !! sid) as [user|]; [|apply IH].
    destruct (rooms st !! s_roomCode user); apply IH.
  - unfold select_song. destruct (users st !! sid) as [user|]; [|apply IH].
    destruct (rooms st !! s_roomCode user); [|apply IH].
    destruct (selected_text _ _ _); apply IH.
  - assert (Hdel : ∀ rs,
        users (mkState rs (delete sid (users st)) (delete sid (joined st))) !! c
          = Some sess →
        s_roomCode sess ∈
          rooms_of (mkState rs (delete sid (users st)) (delete sid (joined st))) c).
    { intros rs. unfold rooms_of. cbn. destruct (decide (sid = c)) as [->|Hne].
      - by rewrite lookup_delete_eq.
      - rewrite !lookup_delete_ne by done. apply IH. }
    unfold disconnect. destruct (users st !! sid) as [user|] eqn:Hu.
    + destruct (rooms st !! s_roomCode user); apply Hdel.
    + unfold rooms_of. cbn. intros Hc.
      assert (sid ≠ c) by congruence.
      rewrite lookup_delete_ne by done. by apply IH.
Qed.

(** C3, as amended (join snapshot). When a participant joins a live room, the
    [room-joined] event sent to the requester is a snapshot of the room that
    has the participant's profile at the end of [members] and whose [messages]
    are the ones logged before the join: the system message about the join is
    appended to the log after the snapshot was emitted, and the [new-message]
    broadcast that ends the handler carries it to the requester, to every
    connection that had joined the room's broadcast group and so to every
    connection whose session is bound to the room.  For the first joiner of a
    fresh room the snapshot has [members] equal to exactly that participant
    and no message, and the log then holds exactly the system message. *)
Theorem join_snapshot_contents (st : ServerState) (sid : string) (e : Env)
    (roomCode username : string) (room : Room) :
  reachable ToString st →
  rooms st !! roomCode = Some room →
  let o := handle ToString st (mkInbound sid e (JoinRoom roomCode username)) in
  let user := mkUser sid username (getAvatarColor username) (JBool false) in
  let welcome := system_message e ("ðŸ‘‹ " ++ username ++ " joined the room") in
  ∃ snapshot room',
    outbox o = [ (ToSocket sid, RoomJoined snapshot);
                 (ToRoomExcept roomCode sid, UserJoined user);
                 (ToRoom roomCode, UsersUpdated (r_users snapshot));
                 (ToRoom roomCode, NewMessage welcome) ] ∧
    snapshot = mkRoom roomCode (r_users room ++ [user]) (r_messages room)
                 (r_playlist room) (r_currentSong room) (r_isPlaying room)
                 (r_currentTime room) ∧
    user ∈ r_users snapshot ∧
    rooms (after o) !! roomCode = Some room' ∧
    r_messages room' = (r_messages snapshot ++ [welcome])%list ∧
    receives (after o) (ToRoom roomCode) sid = true ∧
    (∀ c, in_room st roomCode c = true →
          receives (after o) (ToRoom roomCode) c = true) ∧
    (∀ c other, users st !! c = Some other → s_roomCode other = roomCode →
                receives (after o) (ToRoom roomCode) c = true) ∧
    (r_users room = [] → r_messages room = [] →
     r_users snapshot = [user] ∧ r_messages snapshot = [] ∧
     r_messages room' = [welcome]).
Proof.
  intros Hreach Hr o user welcome. subst o. unfold handle. cbn [event sender env].
  unfold join_room. rewrite Hr. fold user. fold welcome.
  exists (mkRoom roomCode (r_users room ++ [user]) (r_messages room)
            (r_playlist room) (r_currentSong room) (r_isPlaying room)
            (r_currentTime room)),
         (push_message (set_users room (r_users room ++ [user])) welcome).
  cbn [outbox after rooms r_users r_messages set_users push_message].
  split; [reflexivity|]. split; [reflexivity|].
  split; [set_solver|]. split; [apply lookup_insert_eq|].
  split; [done|].
  assert (Hgroup : ∀ c, c = sid ∨ in_room st roomCode c = true →
    receives
      (mkState (<[roomCode := push_message
                               (set_users room (r_users room ++ [user])) welcome]>
                  (rooms st))
               (<[sid := session_of user roomCode]> (users st))
               (socket_join st sid roomCode))
      (ToRoom roomCode) c = true).
  { intros c Hc. unfold receives, in_room, rooms_of, socket_join. cbn [joined].
    apply bool_decide_eq_true_2.
    destruct (decide (c = sid)) as [->|Hne].
    - clear Hc. rewrite lookup_insert_eq. cbn [default]. set_solver.
    - rewrite lookup_insert_ne by done. destruct Hc as [|Hc]; [done|].
      by apply bool_decide_eq_true in Hc. }
  split; [apply Hgroup; by left|].
  split; [intros c Hc; apply Hgroup; by right|].
  split; [|by intros -> ->].
  intros c other Hc Hcode. apply Hgroup. right.
  apply bool_decide_eq_true_2. rewrite <- Hcode.
  by apply session_room_joined.
Qed.

(** ** Membership on regular event sequences *)

Lemma ids_profile (r : Room) : ids r = (λ p, p.1.1) <$> (profile <$> r_users r).
Proof. unfold ids. rewrite <- list_fmap_compose. done. Qed.

Lemma bound_member_profile (us : gmap string Session) (code : string) (u u' : User) :
  profile u' = profile u → bound_member us code u → bound_member us code u'.
Proof.
  unfold profile. intros [= Hid Hname Havatar] (sess & Hs & Hc & Hp).
  exists sess. unfold profile_of in *. by rewrite Hid, Hname, Havatar.
Qed.

Lemma members_ok_same_profiles (us : gmap string Session) (code : string)
    (room room' : Room) :
  profile <$> r_users room' = profile <$> r_users room →
  members_ok us code room → members_ok us code room'.
Proof.
  intros Hsame [Hnd Hbound]. split.
  - by rewrite ids_profile, Hsame, <- ids_profile.
  - intros u' Hu'. apply (list_elem_of_fmap_2 profile) in Hu'.
    rewrite Hsame in Hu'. apply list_elem_of_fmap in Hu' as (u & Hpu & Hu).
    eapply bound_member_profile; eauto.
Qed.

Lemma NoDup_ids_filter (sid : string) (l : list User) :
  NoDup (u_id <$> l) → NoDup (u_id <$> filter (λ u, u_id u ≠ sid) l).
Proof.
  induction l as [|u l IH]; [done|].
  rewrite fmap_cons, NoDup_cons. intros [Hu Hl].
  rewrite filter_cons. case_decide; [|by apply IH].
  rewrite fmap_cons, NoDup_cons. split; [|by apply IH].
  intros Hin. apply Hu. apply list_elem_of_fmap in Hin as (u' & Hid & Hin').
  apply list_elem_of_filter in Hin' as [_ Hin'].
  apply list_elem_of_fmap. eauto.
Qed.

(** An edit of a live room that keeps the profiles of its members. *)
Lemma consistent_edit_room (st : ServerState) (code : string) (room room' : Room) :
  consistent st →
  rooms st !! code = Some room →
  profile <$> r_users room' = profile <$> r_users room →
  consistent (set_rooms st (<[code := room']> (rooms st))).
Proof.
  intros (Hm & Hs & Hf) Hr Hsame. split; [|split]; unfold sessions_ok, fanout_ok, set_rooms;
    cbn [users rooms joined].
  - apply map_Forall_insert_2; [|done].
    eapply members_ok_same_profiles; [done|]. by apply (Hm _ _ Hr).
  - intros sid sess Hsess. destruct (Hs sid sess Hsess) as (r0 & Hr0 & Hin).
    cbn. destruct (decide (code = s_roomCode sess)) as [->|Hne].
    + exists room'. rewrite lookup_insert_eq. split; [done|].
      rewrite Hr in Hr0. injection Hr0 as <-.
      by rewrite ids_profile, Hsame, <- ids_profile.
    + exists r0. by rewrite lookup_insert_ne.
  - done.
Qed.

Lemma consistent_create (st : ServerState) (code : string) :
  consistent st →
  rooms st !! code = None →
  consistent
    (set_rooms st
       (<[code := mkRoom code [] [] [] JNull (JBool false) (JNum 0%float)]>
          (rooms st))).
Proof.
  intros (Hm & Hs & Hf) Hnone. split; [|split]; unfold sessions_ok, fanout_ok, set_rooms;
    cbn [users rooms joined].
  - apply map_Forall_insert_2; [|done]. split; [constructor|].
    cbn. intros u Hu. by apply elem_of_nil in Hu.
  - intros sid sess Hsess. destruct (Hs sid sess Hsess) as (r0 & Hr0 & Hin).
    exists r0. cbn. rewrite lookup_insert_ne; [done|]. congruence.
  - done.
Qed.

Lemma consistent_join (st : ServerState) (sid roomCode : string) (room : Room)
    (user : User) (m : Message) :
  consistent st →
  users st !! sid = None →
  rooms st !! roomCode = Some room →
  u_id user = sid →
  consistent
    (mkState
       (<[roomCode := push_message (set_users room (r_users room ++ [user])) m]>
          (rooms st))
       (<[sid := session_of user roomCode]> (users st))
       (socket_join st sid roomCode)).
Proof.
  intros (Hm & Hs & Hf) Hnone Hr Hid.
  assert (Hfresh : ∀ k r u, rooms st !! k = Some r → u ∈ r_users r → u_id u ≠ sid).
  { intros k r u Hk Hu Heq. destruct (Hm _ _ Hk) as [_ Hb].
    destruct (Hb u Hu) as (sess & Hsess & _). congruence. }
  assert (Hkeep : ∀ k r u, rooms st !! k = Some r → u ∈ r_users r →
            bound_member (<[sid := session_of user roomCode]> (users st)) k u).
  { intros k r u Hk Hu. destruct (Hm _ _ Hk) as [_ Hb].
    destruct (Hb u Hu) as (sess & Hsess & Hrest). exists sess.
    rewrite lookup_insert_ne; [done|]. intros Heq. by apply (Hfresh k r u). }
  split; [|split]; unfold sessions_ok, fanout_ok, set_rooms;
    cbn [users rooms joined].
  - apply map_Forall_insert_2.
    + destruct (Hm _ _ Hr) as [Hnd _]. split.
      * unfold ids. cbn. rewrite fmap_app. apply NoDup_app.
        split; [done|]. split; [|apply NoDup_singleton].
        intros x Hx Hx'. cbn in Hx'. apply list_elem_of_singleton in Hx'.
        apply list_elem_of_fmap in Hx as (u & -> & Hu).
        apply (Hfresh _ _ _ Hr Hu). congruence.
      * cbn. intros u Hu. apply elem_of_app in Hu as [Hu|Hu].
        -- by apply (Hkeep _ _ _ Hr).
        -- apply list_elem_of_singleton in Hu as ->.
           exists (session_of user roomCode). rewrite Hid, lookup_insert_eq.
           done.
    + intros k r Hk. destruct (Hm _ _ Hk) as [Hnd _]. split; [done|].
      intros u Hu. by apply (Hkeep k r).
  - intros c sess. destruct (decide (sid = c)) as [<-|Hne].
    + rewrite lookup_insert_eq. intros [= <-]. cbn.
      rewrite lookup_insert_eq. eexists. split; [done|].
      unfold ids. cbn. rewrite fmap_app. apply elem_of_app. right.
      by apply list_elem_of_singleton.
    + rewrite lookup_insert_ne by done. intros Hsess.
      destruct (Hs c sess Hsess) as (r0 & Hr0 & Hin). cbn.
      destruct (decide (roomCode = s_roomCode sess)) as [->|Hne'].
      * rewrite lookup_insert_eq. eexists. split; [done|].
        rewrite Hr in Hr0. injection Hr0 as <-.
        unfold ids in *. cbn. rewrite fmap_app. apply elem_of_app. by left.
      * exists r0. by rewrite lookup_insert_ne.
  - unfold fanout_ok, socket_join, rooms_of in *. cbn.
    rewrite fmap_insert. cbn. rewrite Hf, lookup_fmap, Hnone. cbn.
    by rewrite union_empty_r_L.
Qed.

Lemma consistent_disconnect (st : ServerState) (sid : string) (user : Session)
    (room : Room) (m : Message) :
  consistent st →
  users st !! sid = Some user →
  rooms st !! s_roomCode user = Some room →
  let room2 :=
    push_message (set_users room (filter (λ u, u_id u ≠ sid) (r_users room))) m in
  consistent
    (mkState
       (if bool_decide (length (r_users room2) = 0%nat)
        then delete (s_roomCode user) (<[s_roomCode user := room2]> (rooms st))
        else <[s_roomCode user := room2]> (rooms st))
       (delete sid (users st))
       (delete sid (joined st))).
Proof.
  intros (Hm & Hs & Hf) Hu Hr room2.
  assert (Hroom2 : members_ok (delete sid (users st)) (s_roomCode user) room2).
  { destruct (Hm _ _ Hr) as [Hnd Hb]. split.
    - unfold ids, room2. cbn. by apply NoDup_ids_filter.
    - unfold room2. cbn. intros u Hin.
      apply list_elem_of_filter in Hin as [Hne Hin].
      destruct (Hb u Hin) as (sess & Hsess & Hrest). exists sess.
      by rewrite lookup_delete_ne. }
  assert (Hothers : ∀ k r, k ≠ s_roomCode user → rooms st !! k = Some r →
            members_ok (delete sid (users st)) k r).
  { intros k r Hk Hl. destruct (Hm _ _ Hl) as [Hnd Hb]. split; [done|].
    intros u Hin. destruct (Hb u Hin) as (sess & Hsess & Hcode & Hp).
    exists sess. rewrite lookup_delete_ne; [done|].
    intros Heq. rewrite <- Heq, Hu in Hsess. injection Hsess as <-. done. }
  assert (Hins : map_Forall (members_ok (delete sid (users st)))
                   (<[s_roomCode user := room2]> (rooms st))).
  { intros k r Hl. destruct (decide (k = s_roomCode user)) as [->|Hk].
    - rewrite lookup_insert_eq in Hl. by injection Hl as <-.
    - rewrite lookup_insert_ne in Hl by done. by apply Hothers. }
  split; [|split]; unfold sessions_ok, fanout_ok; cbn [users rooms joined].
  - case_bool_decide; [by apply map_Forall_delete|done].
  - intros c sess Hsess.
    destruct (decide (sid = c)) as [->|Hne]; [by rewrite lookup_delete_eq in Hsess|].
    rewrite lookup_delete_ne in Hsess by done.
    destruct (Hs c sess Hsess) as (r0 & Hr0 & Hin).
    destruct (decide (s_roomCode user = s_roomCode sess)) as [Heq|Hne'].
    + rewrite <- Heq in *. rewrite Hr in Hr0. injection Hr0 as <-.
      assert (Hc : c ∈ ids room2).
      { unfold ids, room2. cbn. apply list_elem_of_fmap in Hin as (u & -> & Hin).
        apply list_elem_of_fmap. exists u. split; [done|].
        apply list_elem_of_filter. split; [congruence|done]. }
      exists room2. split; [|done]. case_bool_decide as Hlen.
      * apply nil_length_inv in Hlen. unfold ids in Hc. rewrite Hlen in Hc.
        by apply elem_of_nil in Hc.
      * apply lookup_insert_eq.
    + exists r0. split; [|done]. case_bool_decide.
      * rewrite lookup_delete_ne by done. by rewrite lookup_insert_ne.
      * by rewrite lookup_insert_ne.
  - by rewrite fmap_delete, Hf.
Qed.

Lemma consistent_init : consistent init.
Proof.
  split; [|split]; unfold sessions_ok, fanout_ok; cbn.
  - apply map_Forall_empty.
  - intros sid sess Hs. by rewrite lookup_empty in Hs.
  - by rewrite fmap_empty.
Qed.

(** The handlers keep the state consistent on regular event sequences. *)
Lemma regular_consistent (st : ServerState) :
  reachable_by ToString regular st → consistent st.
Proof.
  induction 1 as [|st [sid e ev] _ IH Hok]; [apply consistent_init|].
  unfold regular in Hok. cbn [event sender env] in Hok.
  unfold handle. cbn [event sender env]. destruct ev.
  - by apply consistent_create.
  - unfold join_room. destruct (rooms st !! roomCode) as [room|] eqn:Hr; [|done].
    cbn [after]. by apply consistent_join.
  - unfold send_message. destruct (users st !! sid) as [user|]; [|done].
    destruct (rooms st !! s_roomCode user) as [room|] eqn:Hr; [|done].
    cbn [after]. by eapply consistent_edit_room.
  - unfold typing. destruct (users st !! sid) as [user|]; [|done].
    destruct (rooms st !! s_roomCode user) as [room|] eqn:Hr; [|done].
    destruct (list_find _ _) as [[n roomUser]|] eqn:Hfind; [|done].
    cbn [after]. eapply consistent_edit_room; [done..|].
    apply list_find_Some in Hfind as (Hn & _ & _).
    cbn. rewrite list_fmap_insert. apply list_insert_id.
    by rewrite list_lookup_fmap, Hn.
  - unfold add_song. destruct (users st !! sid) as [user|]; [|done].
    destruct (rooms st !! s_roomCode user) as [room|] eqn:Hr; [|done].
    cbn [after]. by eapply consistent_edit_room.
  - unfold music_control. destruct (users st !! sid) as [user|]; [|done].
    destruct (rooms st !! s_roomCode user) as [room|] eqn:Hr; [|done].
    cbn [after]. by eapply consistent_edit_room.
  - unfold select_song. destruct (users st !! sid) as [user|]; [|done].
    destruct (rooms st !! s_roomCode user) as [room|] eqn:Hr; [|done].
    destruct (selected_text _ _ _); cbn [after]; by eapply consistent_edit_room.
  - unfold disconnect. destruct (users st !! sid) as [user|] eqn:Hu.
    + destruct (rooms st !! s_roomCode user) as [room|] eqn:Hr.
      * cbn [after]. by apply consistent_disconnect.
      * destruct IH as (_ & Hs & _).
        destruct (Hs sid user Hu) as (r0 & Hr0 & _). congruence.
    + cbn [after]. destruct IH as (Hm & Hs & Hf).
      split; [|split]; [done..|].
      unfold fanout_ok in *. cbn [users joined].
      rewrite delete_id; [done|]. by rewrite Hf, lookup_fmap, Hu.
Qed.

(** In a consistent state the members of a live room and the sessions bound
    to its code are the same connections. *)
Lemma consistent_members (st : ServerState) (code : string) (room : Room) :
  consistent st →
  rooms st !! code = Some room →
  NoDup (ids room) ∧
  (∀ sid, sid ∈ ids room ↔
          ∃ sess, users st !! sid = Some sess ∧ s_roomCode sess = code) ∧
  (∀ u, u ∈ r_users room →
        ∃ sess, users st !! u_id u = Some sess ∧ s_roomCode sess = code ∧
                profile_of sess u).
Proof.
  intros (Hm & Hs & _) Hr.
  destruct (Hm _ _ Hr) as [Hnd Hb].
  split; [done|]. split; [|done].
  intros sid. split.
  - intros Hin. apply list_elem_of_fmap in Hin as (u & -> & Hin).
    destruct (Hb u Hin) as (sess & Hsess & Hcode & _). eauto.
  - intros (sess & Hsess & <-).
    destruct (Hs sid sess Hsess) as (r0 & Hr0 & Hin). congruence.
Qed.

(** C2, as amended (membership projection). On every event sequence in which
    no connection sends [join-room] while it already has a session and no
    [create-room] draws the code of a live room, every live room lists each
    connection at most once, the connections it lists are exactly the ones
    whose session is bound to the room's code, and each listed profile has the
    identity, name and avatar of that session. *)
Theorem members_are_the_bound_sessions (st : ServerState) (code : string)
    (room : Room) :
  reachable_by ToString regular st →
  rooms st !! code = Some room →
  NoDup (ids room) ∧
  (∀ sid, sid ∈ ids room ↔
          ∃ sess, users st !! sid = Some sess ∧ s_roomCode sess = code) ∧
  (∀ u, u ∈ r_users room →
        ∃ sess, users st !! u_id u = Some sess ∧ s_roomCode sess = code ∧
                profile_of sess u).
Proof.
  intros Hreach. apply consistent_members. by apply regular_consistent.
Qed.

(** On regular event sequences the connections joined to the broadcast group
    of a live room are the connections listed in its [members]. *)
Lemma regular_fanout_is_membership (st : ServerState) (code : string)
    (room : Room) (c : string) :
  reachable_by ToString regular st →
  rooms st !! code = Some room →
  in_room st code c = true ↔ c ∈ ids room.
Proof.
  intros Hreach Hr.
  pose proof (regular_consistent st Hreach) as Hcons.
  destruct (consistent_members st code room Hcons Hr) as (_ & Hiff & _).
  destruct Hcons as (_ & _ & Hf).
  rewrite Hiff. unfold in_room, rooms_of. rewrite Hf, lookup_fmap.
  rewrite bool_decide_eq_true.
  destruct (users st !! c) as [sess|]; cbn.
  - rewrite elem_of_singleton. split.
    + intros ->. eauto.
    + by intros (sess' & [= <-] & ->).
  - split; [set_solver|]. by intros (sess' & ? & _).
Qed.

(** C9, as amended (music-sync exclusion). For a [music-control] from a joined
    sender the handler emits one event, a [music-sync] with the stored
    playback values and the relay timestamp.  The sender does not receive it
    and every other connection whose session is bound to the sender's room
    does; it goes to the connections that joined the room's broadcast group,
    and on regular event sequences these are exactly the connections listed
    in the room's [members], the sender left out. *)
Theorem music_sync_excludes_sender (st : ServerState) (sid : string) (e : Env)
    (isPlaying currentTime : JsVal) (user : Session) (room : Room) :
  reachable ToString st →
  users st !! sid = Some user →
  rooms st !! s_roomCode user = Some room →
  let o := handle ToString st (mkInbound sid e (MusicControl isPlaying currentTime)) in
  ∃ target,
    outbox o =
      [(target, MusicSync isPlaying (js_or currentTime (JNum 0%float)) (now e))] ∧
    receives (after o) target sid = false ∧
    (∀ c, receives (after o) target c = true ↔
          c ≠ sid ∧ in_room st (s_roomCode user) c = true) ∧
    (∀ c other, c ≠ sid → users st !! c = Some other →
       s_roomCode other = s_roomCode user →
       receives (after o) target c = true) ∧
    (reachable_by ToString regular st →
     ∀ c, receives (after o) target c = true ↔ c ∈ ids room ∧ c ≠ sid).
Proof.
  intros Hreach Hu Hr o. subst o.
  rewrite (music_control_outcome st sid e isPlaying currentTime user room Hu Hr).
  cbn [after outbox]. eexists. split; [reflexivity|].
  assert (Hrecv : ∀ c,
    receives (set_rooms st (<[s_roomCode user :=
        set_playback room isPlaying (js_or currentTime (JNum 0%float))]> (rooms st)))
      (ToRoomExcept (s_roomCode user) sid) c = true ↔
    c ≠ sid ∧ in_room st (s_roomCode user) c = true).
  { intros c. cbn. unfold in_room, rooms_of. cbn.
    rewrite andb_true_iff, negb_true_iff, bool_decide_eq_false. tauto. }
  split; [|split; [|split]].
  - destruct (receives _ _ sid) eqn:Hs; [|done].
    apply Hrecv in Hs. by destruct Hs.
  - done.
  - intros c other Hc Hother Hcode. apply Hrecv. split; [done|].
    apply bool_decide_eq_true_2. rewrite <- Hcode.
    by apply session_room_joined.
  - intros Hreg c. rewrite Hrecv.
    rewrite (regular_fanout_is_membership st _ room c Hreg Hr). tauto.
Qed.

(** Hence, on regular event sequences, [music-sync] goes to exactly the
    connections listed in the room's [members], the sender left out. *)
Lemma music_sync_reaches_listed_members (st : ServerState) (sid : string) (e : Env)
    (isPlaying currentTime : JsVal) (user : Session) (room : Room) (c : string) :
  reachable_by ToString regular st →
  users st !! sid = Some user →
  rooms st !! s_roomCode user = Some room →
  let o := handle ToString st (mkInbound sid e (MusicControl isPlaying currentTime)) in
  (∃ t ev, outbox o = [(t, ev)] ∧ receives (after o) t c = true) ↔
  c ∈ ids room ∧ c ≠ sid.
Proof.
  intros Hreach Hu Hr o. subst o.
  rewrite (music_control_outcome st sid e isPlaying currentTime user room Hu Hr).
  cbn [after outbox].
  rewrite <- (regular_fanout_is_membership st _ room c Hreach Hr).
  split.
  - intros (t & ev & [= <- <-] & Hrecv). cbn in Hrecv.
    apply andb_true_iff in Hrecv as [Hin Hne].
    apply negb_true_iff, bool_decide_eq_false in Hne. done.
  - intros [Hin Hne]. eexists _, _. split; [reflexivity|]. cbn.
    apply andb_true_iff. split; [done|].
    by apply negb_true_iff, bool_decide_eq_false.
Qed.

Lemma reachable_by_run (ok : ServerState → Inbound → Prop) (st : ServerState)
    (trace : list Inbound) :
  reachable_by ToString ok st →
  all_ok ToString ok st trace →
  reachable_by ToString ok (run ToString st trace).
Proof.
  revert st. induction trace as [|i rest IH]; intros st Hst Hok; [done|].
  destruct Hok as [Hi Hrest]. cbn. apply IH; [|done]. by constructor.
Qed.

End Properties.

(** * The properties on scenario A, and the inputs on which claims fail *)

Lemma ann_in_room_state :
  ann_in_room =
    mkState {[ "AB12CD" := ann_room ]} {[ "s1" := ann_session ]}
            {[ "s1" := {[ "AB12CD" ]} ]}.
Proof. vm_compute. reflexivity. Qed.

Lemma ann_in_room_regular : reachable_by ToString_sample regular ann_in_room.
Proof.
  apply reachable_by_run; [constructor|]. cbn. repeat split; reflexivity.
Qed.

Lemma ann_in_room_reachable : reachable ToString_sample ann_in_room.
Proof. apply reachable_by_run; [constructor|]. cbn. done. Qed.

Lemma ann_and_bo_reachable : reachable ToString_sample ann_and_bo.
Proof. apply reachable_by_run; [apply ann_in_room_reachable|]. cbn. done. Qed.

Lemma ann_playing_in_range : reachable_by ToString_sample time_in_range ann_playing.
Proof.
  apply reachable_by_run; [apply reachable_by_run; [constructor|]|].
  - cbn. done.
  - cbn. split; [|done]. by right.
Qed.

Lemma two_rooms_reachable : reachable ToString_sample two_rooms.
Proof. apply reachable_by_run; [constructor|]. cbn. done. Qed.

(** C7 on scenario A: Bo asks for a room that does not exist. *)
Lemma join_unknown_room_is_atomic_witness :
  let o := handle ToString_sample ann_in_room (join_by "s2" "NOROOM" "Bo") in
  after o = ann_in_room ∧
  outbox o = [(ToSocket "s2", RoomError "Room not found")] ∧
  completion o = Returned ∧
  ∀ t ev c, (t, ev) ∈ outbox o → c ≠ "s2" → receives (after o) t c = false.
Proof.
  apply (join_unknown_room_is_atomic ToString_sample ann_in_room "s2" env0
           "NOROOM" "Bo").
  vm_compute. reflexivity.
Defined.

(** C8 on scenario A: a chat message from a connection that never joined. *)
Lemma orphan_event_is_dropped_witness :
  handle ToString_sample ann_in_room (mkInbound "s2" env1 (SendMessage (JStr "hi")))
  = mkOutcome ann_in_room [] Returned.
Proof.
  apply (orphan_event_is_dropped ToString_sample ann_in_room "s2" env1
           (SendMessage (JStr "hi"))).
  - reflexivity.
  - vm_compute. reflexivity.
Defined.

(** C4 on scenario A: Ann selects the same song twice while it plays. *)
Lemma select_song_resets_playback_witness :
  let st' := after (handle ToString_sample ann_playing
                      (mkInbound "s1" env0 (SelectSong stray_song))) in
  let st'' := after (handle ToString_sample st'
                       (mkInbound "s1" env1 (SelectSong stray_song))) in
  ∃ room' room'',
    rooms st' !! "AB12CD" = Some room' ∧
    r_currentSong room' = stray_song ∧
    r_isPlaying room' = JBool false ∧
    r_currentTime room' = JNum 0%float ∧
    rooms st'' !! "AB12CD" = Some room'' ∧
    playback room'' = playback room'.
Proof.
  eapply (select_song_resets_playback ToString_sample ann_playing "s1" env0 env1
            stray_song ann_session).
  - vm_compute. reflexivity.
  - vm_compute. reflexivity.
Defined.

(** C10 on scenario A: the playlist of the only room is empty. *)
Lemma select_song_ignores_playlist_witness :
  let st' := after (handle ToString_sample ann_in_room
                      (mkInbound "s1" env1 (SelectSong stray_song))) in
  ∃ room', rooms st' !! "AB12CD" = Some room' ∧
    r_currentSong room' = stray_song ∧
    ∀ code r, rooms st' !! code = Some r → stray_song ∉ song_value <$> r_playlist r.
Proof.
  apply (select_song_ignores_playlist ToString_sample ann_in_room "s1" env1
           stray_song ann_session ann_room).
  - vm_compute. reflexivity.
  - vm_compute. reflexivity.
  - intros code r. rewrite ann_in_room_state. cbn [rooms].
    intros [_ <-]%lookup_singleton_Some. cbn. apply not_elem_of_nil.
Defined.

(** C6 on scenario A: a truthy time is stored as it is. *)
Lemma music_control_writes_through_witness :
  let st' := after (handle ToString_sample ann_in_room
                      (mkInbound "s1" env1
                         (MusicControl (JBool true) (JNum 12.5%float)))) in
  ∃ room', rooms st' !! "AB12CD" = Some room' ∧
    r_isPlaying room' = JBool true ∧
    r_currentTime room' = JNum 12.5%float ∧
    r_currentSong room' = JNull.
Proof.
  apply (music_control_writes_through ToString_sample ann_in_room "s1" env1
           (JBool true) (JNum 12.5%float) ann_session ann_room).
  - vm_compute. reflexivity.
  - vm_compute. reflexivity.
Defined.

(** C5 on scenario A, after a [music-control] at 12.5 seconds. *)
Lemma current_time_nonnegative_witness :
  nonneg_number (r_currentTime (set_playback ann_room (JBool true) (JNum 12.5%float)))
  = true.
Proof.
  apply (current_time_nonnegative ToString_sample ann_playing "AB12CD").
  - apply ann_playing_in_range.
  - vm_compute. reflexivity.
Defined.

(** C3 on scenario A: Bo joins the room Ann is in. *)
Lemma join_snapshot_contents_witness :
  let o := handle ToString_sample ann_in_room
             (mkInbound "s2" env1 (JoinRoom "AB12CD" "Bo")) in
  let user := mkUser "s2" "Bo" (getAvatarColor "Bo") (JBool false) in
  let welcome := system_message env1 ("ðŸ‘‹ " ++ "Bo" ++ " joined the room") in
  ∃ snapshot room',
    outbox o = [ (ToSocket "s2", RoomJoined snapshot);
                 (ToRoomExcept "AB12CD" "s2", UserJoined user);
                 (ToRoom "AB12CD", UsersUpdated (r_users snapshot));
                 (ToRoom "AB12CD", NewMessage welcome) ] ∧
    snapshot = mkRoom "AB12CD" (r_users ann_room ++ [user]) (r_messages ann_room)
                 (r_playlist ann_room) (r_currentSong ann_room)
                 (r_isPlaying ann_room) (r_currentTime ann_room) ∧
    user ∈ r_users snapshot ∧
    rooms (after o) !! "AB12CD" = Some room' ∧
    r_messages room' = (r_messages snapshot ++ [welcome])%list ∧
    receives (after o) (ToRoom "AB12CD") "s2" = true ∧
    (∀ c, in_room ann_in_room "AB12CD" c = true →
          receives (after o) (ToRoom "AB12CD") c = true) ∧
    (∀ c other, users ann_in_room !! c = Some other →
                s_roomCode other = "AB12CD" →
                receives (after o) (ToRoom "AB12CD") c = true) ∧
    (r_users ann_room = [] → r_messages ann_room = [] →
     r_users snapshot = [user] ∧ r_messages snapshot = [] ∧
     r_messages room' = [welcome]).
Proof.
  apply (join_snapshot_contents ToString_sample ann_in_room "s2" env1 "AB12CD"
           "Bo" ann_room).
  - apply ann_in_room_reachable.
  - vm_compute. reflexivity.
Defined.

(** C1 on two live rooms. *)
Lemma live_room_codes_differ_witness :
  let r1 := mkRoom "AB12CD" [] [] [] JNull (JBool false) (JNum 0%float) in
  let r2 := mkRoom "ZZ99ZZ" [] [] [] JNull (JBool false) (JNum 0%float) in
  r_code r1 = "AB12CD" ∧ r_code r2 = "ZZ99ZZ" ∧ r_code r1 ≠ r_code r2.
Proof.
  apply (live_room_codes_differ ToString_sample two_rooms "AB12CD" "ZZ99ZZ").
  - apply two_rooms_reachable.
  - vm_compute. reflexivity.
  - vm_compute. reflexivity.
  - discriminate.
Defined.

(** C2 on scenario A. *)
Lemma members_are_the_bound_sessions_witness :
  NoDup (ids ann_room) ∧
  (∀ sid, sid ∈ ids ann_room ↔
          ∃ sess, users ann_in_room !! sid = Some sess ∧ s_roomCode sess = "AB12CD") ∧
  (∀ u, u ∈ r_users ann_room →
        ∃ sess, users ann_in_room !! u_id u = Some sess ∧
                s_roomCode sess = "AB12CD" ∧ profile_of sess u).
Proof.
  apply (members_are_the_bound_sessions ToString_sample ann_in_room "AB12CD" ann_room).
  - apply ann_in_room_regular.
  - vm_compute. reflexivity.
Defined.

(** C9 with two members: Ann drives playback, Bo is the other member. *)
Lemma music_sync_excludes_sender_witness :
  let o := handle ToString_sample ann_and_bo
             (mkInbound "s1" env1 (MusicControl (JBool true) (JNum 12.5%float))) in
  ∃ target,
    outbox o =
      [(target, MusicSync (JBool true) (js_or (JNum 12.5%float) (JNum 0%float))
                  (now env1))] ∧
    receives (after o) target "s1" = false ∧
    (∀ c, receives (after o) target c = true ↔
          c ≠ "s1" ∧ in_room ann_and_bo "AB12CD" c = true) ∧
    (∀ c other, c ≠ "s1" → users ann_and_bo !! c = Some other →
       s_roomCode other = "AB12CD" →
       receives (after o) target c = true) ∧
    (∀ c, receives (after o) target c = true ↔
          c ∈ ids ann_and_bo_room ∧ c ≠ "s1").
Proof.
  assert (Hreg : reachable_by ToString_sample regular ann_and_bo).
  { apply reachable_by_run; [apply ann_in_room_regular|].
    cbn. split; [|done]. vm_compute. reflexivity. }
  assert (Hu : users ann_and_bo !! "s1" = Some ann_session)
    by (vm_compute; reflexivity).
  assert (Hr : rooms ann_and_bo !! s_roomCode ann_session = Some ann_and_bo_room)
    by (vm_compute; reflexivity).
  destruct (music_sync_excludes_sender ToString_sample ann_and_bo "s1" env1
              (JBool true) (JNum 12.5%float) ann_session ann_and_bo_room
              ann_and_bo_reachable Hu Hr)
    as (target & Hout & Hself & Hgroup & Hbound & Hlisted).
  exists target. split; [exact Hout|]. split; [exact Hself|].
  split; [exact Hgroup|]. split; [exact Hbound|]. exact (Hlisted Hreg).
Defined.

(** ** Inputs on which the claims, as the specification states them, fail *)

(** C1: [create-room] has no collision guard.  While room AB12CD is live with
    Ann in it, a second [create-room] whose draw is the same answers with the
    same code AB12CD, and the registry entry is replaced by an empty room
    although Ann's session is still bound to that code. *)
Lemma create_room_redraws_live_code :
  let o := handle ToString_sample ann_in_room (create_by "s2") in
  reachable ToString_sample ann_in_room ∧
  r_users <$> rooms ann_in_room !! "AB12CD" = Some [ann_profile] ∧
  outbox o = [(ToSocket "s2", RoomCreated "AB12CD")] ∧
  r_users <$> rooms (after o) !! "AB12CD" = Some [] ∧
  users (after o) !! "s1" = Some ann_session.
Proof.
  split; [apply ann_in_room_reachable|]. vm_compute. done.
Qed.

(** C2: a connection that joins AB12CD and then ZZ99ZZ stays listed in the
    members of AB12CD, while its only session is bound to ZZ99ZZ. *)
Lemma second_join_breaks_projection :
  ∃ room, rooms ann_joined_twice !! "AB12CD" = Some room ∧
    "s1" ∈ ids room ∧
    s_roomCode <$> users ann_joined_twice !! "s1" = Some "ZZ99ZZ" ∧
    ¬ ∃ sess, users ann_joined_twice !! "s1" = Some sess ∧
              s_roomCode sess = "AB12CD".
Proof.
  exists ann_room. split; [vm_compute; reflexivity|].
  split; [apply list_elem_of_singleton; reflexivity|].
  split; [vm_compute; reflexivity|].
  intros (sess & Hsess & Hcode).
  assert (Hs : s_roomCode <$> users ann_joined_twice !! "s1" = Some "ZZ99ZZ")
    by (vm_compute; reflexivity).
  rewrite Hsess in Hs. cbn in Hs. rewrite Hcode in Hs. discriminate Hs.
Qed.

(** C3: scenario A.  The [room-joined] snapshot sent to the first joiner of a
    fresh room has no message in it; the system message follows in a
    [new-message] event. *)
Lemma first_join_snapshot_has_no_message :
  let o := handle ToString_sample (run ToString_sample init [create_by "s1"])
             (join_by "s1" "AB12CD" "Ann") in
  ∃ snapshot,
    outbox o = [ (ToSocket "s1", RoomJoined snapshot);
                 (ToRoomExcept "AB12CD" "s1", UserJoined ann_profile);
                 (ToRoom "AB12CD", UsersUpdated [ann_profile]);
                 (ToRoom "AB12CD", NewMessage ann_joined_message) ] ∧
    r_users snapshot = [ann_profile] ∧
    r_messages snapshot = [] ∧
    ann_joined_message ∉ r_messages snapshot.
Proof.
  eexists. split; [vm_compute; reflexivity|].
  cbn. repeat split. apply not_elem_of_nil.
Qed.

(** C5: a [music-control] with a negative [currentTime] is stored as it is. *)
Lemma negative_time_is_stored :
  let i := mkInbound "s1" env1 (MusicControl (JBool true) (JNum (-5)%float)) in
  let st' := after (handle ToString_sample ann_in_room i) in
  reachable ToString_sample st' ∧
  r_currentTime <$> rooms st' !! "AB12CD" = Some (JNum (-5)%float) ∧
  nonneg_number (JNum (-5)%float) = false.
Proof.
  split; [|vm_compute; done].
  constructor; [apply ann_in_room_reachable|done].
Qed.

(** C6: a [music-control] that supplies [null] as [currentTime] stores 0. *)
Lemma null_time_is_replaced :
  let i := mkInbound "s1" env1 (MusicControl (JBool true) JNull) in
  let st' := after (handle ToString_sample ann_in_room i) in
  r_currentTime <$> rooms st' !! "AB12CD" = Some (JNum 0%float) ∧
  JNum 0%float ≠ JNull.
Proof. split; [vm_compute; reflexivity|discriminate]. Qed.

(** C9: after the same connection joined AB12CD and then ZZ99ZZ, the code
    AB12CD was drawn again and Bo joined the room it names.  The [music-sync]
    of Bo's [music-control] reaches the first connection, which is not listed
    in the room's members and whose session is bound to ZZ99ZZ. *)
Lemma music_sync_reaches_a_stranger :
  let i := mkInbound "s2" env1 (MusicControl (JBool true) (JNum 12.5%float)) in
  let o := handle ToString_sample bo_in_redrawn_room i in
  reachable ToString_sample bo_in_redrawn_room ∧
  ids <$> rooms bo_in_redrawn_room !! "AB12CD" = Some ["s2"] ∧
  s_roomCode <$> users bo_in_redrawn_room !! "s2" = Some "AB12CD" ∧
  s_roomCode <$> users bo_in_redrawn_room !! "s1" = Some "ZZ99ZZ" ∧
  outbox o = [(ToRoomExcept "AB12CD" "s2",
               MusicSync (JBool true) (JNum 12.5%float) (now env1))] ∧
  receives (after o) (ToRoomExcept "AB12CD" "s2") "s1" = true.
Proof.
  split; [|vm_compute; done].
  apply reachable_by_run; [apply reachable_by_run|]; [|cbn; done..].
  apply reachable_by_run; [constructor|]. cbn. done.
Qed.

(** * Further properties of the server *)

(** ** The two utilities *)

Lemma toUpperCase_length (s : string) :
  String.length (toUpperCase s) = String.length s.
Proof. induction s as [|c s IH]; cbn; congruence. Qed.

Lemma substring_length (n m : nat) (s : string) :
  String.length (String.substring n m s) = Nat.min m (String.length s - n).
Proof.
  revert n m. induction s as [|c s IH]; intros [|n] [|m]; cbn; try done.
  all: rewrite IH; cbn; by rewrite ?Nat.sub_0_r.
Qed.

Lemma upper_ascii_idempotent (c : ascii) : upper_ascii (upper_ascii c) = upper_ascii c.
Proof. destruct c as [[] [] [] [] [] [] [] []]; reflexivity. Qed.

Lemma toUpperCase_idempotent (s : string) : toUpperCase (toUpperCase s) = toUpperCase s.
Proof.
  induction s as [|c s IH]; [done|]. cbn. by rewrite upper_ascii_idempotent, IH.
Qed.

(** X1. The avatar colour of every name is one of the ten colours of the
    palette: the index [Math.abs(hash) % 10] never leaves the table, however
    the hash wrapped. *)
Theorem getAvatarColor_in_palette (username : string) :
  getAvatarColor username ∈ colors.
Proof.
  unfold getAvatarColor. apply list_elem_of_In, nth_In.
  change (length colors) with 10%nat.
  pose proof (Z.mod_pos_bound (Z.abs (hash_from 0 username)) 10 eq_refl).
  lia.
Qed.

(** X2. A room code has the characters 2 to 7 of the draw's base-36 text: six
    characters when the text has at least eight, fewer when the text is
    shorter, none when it has at most two (a draw of 0 prints as one
    character).  The code is already upper case: converting it again, as the
    client does before it sends [join-room], gives the same code. *)
Theorem generateRoomCode_shape (r : string) :
  String.length (generateRoomCode r) = Nat.min 6 (String.length r - 2) ∧
  toUpperCase (generateRoomCode r) = generateRoomCode r.
Proof.
  unfold generateRoomCode. split.
  - by rewrite toUpperCase_length, substring_length.
  - apply toUpperCase_idempotent.
Qed.

(** ** The handlers *)

Lemma profile_set_isTyping (l : list User) (n : nat) (u : User) (v : JsVal) :
  l !! n = Some u →
  profile <$> <[n := set_isTyping u v]> l = profile <$> l.
Proof.
  intros Hn. rewrite list_fmap_insert. apply list_insert_id.
  by rewrite list_lookup_fmap, Hn.
Qed.

(** Case analysis on the run of one handler. *)
Ltac handler_cases ev :=
  unfold handle; cbn [event sender env]; destruct ev;
  unfold create_room, join_room, send_message, typing, add_song, music_control,
    select_song, disconnect;
  repeat match goal with
    | |- context [match users ?st !! ?k with _ => _ end] =>
        let H := fresh "Huser" in
        let u := fresh "user" in destruct (users st !! k) as [u|] eqn:H
    | |- context [match rooms ?st !! ?k with _ => _ end] =>
        let H := fresh "Hroom" in
        let r := fresh "room" in destruct (rooms st !! k) as [r|] eqn:H
    | |- context [match list_find ?P ?l with _ => _ end] =>
        let H := fresh "Hfind" in
        let n := fresh "n" in
        let u := fresh "roomUser" in
        destruct (list_find P l) as [[n u]|] eqn:H
    | |- context [match selected_text ?f ?a ?b with _ => _ end] =>
        let H := fresh "Htext" in
        let t := fresh "text" in destruct (selected_text f a b) as [t|] eqn:H
    end;
  cbn [after outbox completion rooms users joined set_rooms].

Section Handlers.


Variable ToString : JsVal → option string.

(** X3. A room that [create-room] has just announced can be joined under the
    announced code, also after the client put the code in upper case, whatever
    the state was before: the joiner is answered with a snapshot that has the
    joiner as only member, no message, no song and a stopped playhead. *)
Theorem created_room_is_joinable (st : ServerState) (creator joiner : string)
    (e e' : Env) (username : string) :
  let code := generateRoomCode (rnd e) in
  let o1 := handle ToString st (mkInbound creator e CreateRoom) in
  let o2 := handle ToString (after o1)
              (mkInbound joiner e' (JoinRoom (toUpperCase code) username)) in
  outbox o1 = [(ToSocket creator, RoomCreated code)] ∧
  head (outbox o2) =
    Some (ToSocket joiner,
          RoomJoined
            (mkRoom code
               [mkUser joiner username (getAvatarColor username) (JBool false)]
               [] [] JNull (JBool false) (JNum 0%float))).
Proof.
  intros code o1 o2. split; [done|]. subst o2 o1 code.
  unfold generateRoomCode at 1. rewrite toUpperCase_idempotent.
  fold (generateRoomCode (rnd e)).
  unfold handle. cbn [event sender env]. unfold create_room.
  cbn [after]. unfold join_room, set_rooms. cbn [rooms].
  by rewrite lookup_insert_eq.
Qed.

(** X4. A room leaves the registry only when a connection disconnects whose
    session is bound to it and the room lists no other connection; no other
    event removes a room. *)
Theorem room_removed_only_by_last_leave (st : ServerState) (i : Inbound)
    (code : string) (room : Room) :
  rooms st !! code = Some room →
  rooms (after (handle ToString st i)) !! code = None →
  event i = Disconnect ∧
  (∃ user, users st !! sender i = Some user ∧ s_roomCode user = code) ∧
  ∀ u, u ∈ r_users room → u_id u = sender i.
Proof.
  intros Hroom. destruct i as [sid e ev]. cbn [sender event].
  handler_cases ev; intros Hgone;
    try (rewrite Hroom in Hgone; discriminate Hgone);
    try (apply lookup_insert_None in Hgone as [Hgone _];
         rewrite Hroom in Hgone; discriminate Hgone).
  case_bool_decide as Hlen.
  - destruct (decide (s_roomCode user = code)) as [<-|Hne].
    + split; [done|]. split; [eauto|].
      rewrite Hroom in Hroom0. injection Hroom0 as <-.
      apply nil_length_inv in Hlen. cbn in Hlen.
      intros u Hu. destruct (decide (u_id u = sid)) as [|Hother]; [done|].
      exfalso. eapply filter_nil_not_elem_of; [exact Hlen| |exact Hu]. done.
    + rewrite lookup_delete_ne, lookup_insert_ne in Hgone by done.
      rewrite Hroom in Hgone. discriminate Hgone.
  - apply lookup_insert_None in Hgone as [Hgone _].
    rewrite Hroom in Hgone. discriminate Hgone.
Qed.

(** X5. The message log and the playlist of a live room only grow: unless a
    [create-room] draws the room's code, an event appends at most one message
    and at most one song to what the room had, and leaves its code alone. *)
Theorem logs_only_grow (st : ServerState) (i : Inbound) (code : string)
    (room room' : Room) :
  (event i = CreateRoom → generateRoomCode (rnd (env i)) ≠ code) →
  rooms st !! code = Some room →
  rooms (after (handle ToString st i)) !! code = Some room' →
  r_code room' = r_code room ∧
  (∃ ms, r_messages room' = (r_messages room ++ ms)%list ∧ (length ms ≤ 1)%nat) ∧
  (∃ ss, r_playlist room' = (r_playlist room ++ ss)%list ∧ (length ss ≤ 1)%nat).
Proof.
  intros Hcreate Hroom. destruct i as [sid e ev].
  cbn [sender event env] in Hcreate.
  pose (grows := λ r0 r1 : Room,
    r_code r1 = r_code r0 ∧
    (∃ ms, r_messages r1 = (r_messages r0 ++ ms)%list ∧ (length ms ≤ 1)%nat) ∧
    (∃ ss, r_playlist r1 = (r_playlist r0 ++ ss)%list ∧ (length ss ≤ 1)%nat)).
  change (rooms (after (handle ToString st (mkInbound sid e ev))) !! code
            = Some room' → grows room room').
  assert (Hnil : ∀ A (l : list A), ∃ k, l = (l ++ k)%list ∧ (length k ≤ 1)%nat).
  { intros A l. exists []. rewrite app_nil_r. cbn. split; [done|lia]. }
  assert (Hone : ∀ A (l : list A) x,
            ∃ k, (l ++ [x])%list = (l ++ k)%list ∧ (length k ≤ 1)%nat).
  { intros A l x. exists [x]. cbn. split; [done|lia]. }
  assert (Hsame : ∀ r, Some room = Some r → grows room r).
  { intros r [= <-]. split; [done|]. split; apply Hnil. }
  assert (Hedit : ∀ k r0 r1, rooms st !! k = Some r0 → grows r0 r1 →
            <[k := r1]> (rooms st) !! code = Some room' → grows room room').
  { intros k r0 r1 Hk Hr1 Hl. destruct (decide (k = code)) as [->|Hne].
    - rewrite lookup_insert_eq in Hl. injection Hl as <-.
      rewrite Hroom in Hk. by injection Hk as <-.
    - rewrite lookup_insert_ne in Hl by done. apply Hsame. congruence. }
  handler_cases ev; intros Hafter;
    try (apply Hsame; congruence);
    try (eapply Hedit; [eassumption| |exact Hafter];
         split; [done|]; cbn; split; first [apply Hnil | apply Hone]).
  - rewrite lookup_insert_ne in Hafter by auto. apply Hsame. congruence.
  - case_bool_decide.
    + destruct (decide (s_roomCode user = code)) as [<-|Hne].
      * by rewrite lookup_delete_eq in Hafter.
      * rewrite lookup_delete_ne, lookup_insert_ne in Hafter by done.
        apply Hsame. congruence.
    + eapply Hedit; [eassumption| |exact Hafter].
      split; [done|]. cbn. split; [apply Hone|apply Hnil].
Qed.

(** The session table changes in two places only. *)
Lemma handle_users (st : ServerState) (i : Inbound) :
  let us' := users (after (handle ToString st i)) in
  us' = users st ∨
  (∃ roomCode username,
      event i = JoinRoom roomCode username ∧
      is_Some (rooms st !! roomCode) ∧
      us' = <[sender i :=
               mkSession (sender i) username (getAvatarColor username)
                         (JBool false) roomCode]> (users st)) ∨
  (event i = Disconnect ∧ us' = delete (sender i) (users st)).
Proof.
  destruct i as [sid e ev]. cbn [sender event].
  handler_cases ev; try (by left).
  - right. left. eauto 6.
  - right. by right.
  - right. by right.
Qed.

(** X6. In every reachable state a session is stored under its own connection
    id, carries the avatar colour computed from its name and the room code it
    joined with, names a room it has joined, and has its typing flag false:
    the [typing] handler writes the flag of the member profile, never the
    session's. *)
Theorem sessions_well_formed (st : ServerState) (sid : string) (sess : Session) :
  reachable ToString st →
  users st !! sid = Some sess →
  s_id sess = sid ∧
  s_avatar sess = getAvatarColor (s_username sess) ∧
  s_isTyping sess = JBool false ∧
  in_room st (s_roomCode sess) sid = true.
Proof.
  intros Hreach Hsess.
  split; [|split; [|split]];
    [| | |by apply bool_decide_eq_true_2, (session_room_joined ToString)].
  all: revert sid sess Hsess;
    induction Hreach as [|st i _ IH _]; [by intros sid sess; cbn|];
    intros sid sess;
    destruct (handle_users st i)
      as [-> | [(roomCode & username & _ & _ & ->) | [_ ->]]];
    [ apply IH
    | destruct (decide (sender i = sid)) as [<-|Hne];
      [ rewrite lookup_insert_eq; by intros [= <-]
      | rewrite lookup_insert_ne by done; apply IH ]
    | destruct (decide (sender i = sid)) as [<-|Hne];
      [ by rewrite lookup_delete_eq
      | rewrite lookup_delete_ne by done; apply IH ] ].
Qed.

(** The connections that have a session are the ones that joined a
    broadcast group. *)
Lemma joined_iff_session (st : ServerState) (c : string) :
  reachable ToString st →
  joined st !! c = None ↔ users st !! c = None.
Proof.
  intros Hreach. revert c.
  induction Hreach as [|st [sid e ev] _ IH _]; [by intros c; cbn|].
  intros c. handler_cases ev; try apply IH.
  - unfold socket_join. destruct (decide (sid = c)) as [->|Hne].
    + by rewrite !lookup_insert_eq.
    + rewrite !lookup_insert_ne by done. apply IH.
  - destruct (decide (sid = c)) as [->|Hne].
    + by rewrite !lookup_delete_eq.
    + rewrite !lookup_delete_ne by done. apply IH.
  - destruct (decide (sid = c)) as [->|Hne].
    + by rewrite !lookup_delete_eq.
    + rewrite !lookup_delete_ne by done. apply IH.
  - destruct (decide (sid = c)) as [->|Hne].
    + by rewrite lookup_delete_eq.
    + rewrite lookup_delete_ne by done. apply IH.
Qed.

(** X7. After a [disconnect], on regular event sequences, the connection has
    no session, is in no broadcast group, is listed in no live room, and
    received none of the events the handler emitted. *)
Theorem disconnect_cleans_up (st : ServerState) (sid : string) (e : Env) :
  reachable_by ToString regular st →
  let o := handle ToString st (mkInbound sid e Disconnect) in
  users (after o) !! sid = None ∧
  joined (after o) !! sid = None ∧
  (∀ code room, rooms (after o) !! code = Some room → sid ∉ ids room) ∧
  (∀ t ev, (t, ev) ∈ outbox o → receives (after o) t sid = false).
Proof.
  intros Hreach o.
  assert (Hafter : reachable_by ToString regular (after o))
    by (by constructor).
  assert (Hu : users (after o) !! sid = None).
  { subst o. unfold handle, disconnect. cbn [event sender env].
    destruct (users st !! sid) as [user|] eqn:Huser; [|done].
    destruct (rooms st !! s_roomCode user); cbn; apply lookup_delete_eq. }
  assert (Hj : joined (after o) !! sid = None).
  { subst o. unfold handle, disconnect. cbn [event sender env].
    destruct (users st !! sid) as [user|]; [|cbn; apply lookup_delete_eq].
    destruct (rooms st !! s_roomCode user); cbn; apply lookup_delete_eq. }
  assert (Hout : ∀ room, in_room (after o) room sid = false).
  { intros room. unfold in_room, rooms_of. rewrite Hj. cbn.
    apply bool_decide_eq_false_2, not_elem_of_empty. }
  split; [done|]. split; [done|]. split.
  - intros code room Hroom Hin.
    destruct (consistent_members (after o) code room
                (regular_consistent ToString _ Hafter) Hroom) as (_ & Hiff & _).
    apply Hiff in Hin as (sess & Hsess & _). congruence.
  - intros t ev Hin. destruct t as [c|room|room c]; cbn.
    + exfalso. subst o. revert Hin. unfold handle, disconnect.
      cbn [event sender env].
      destruct (users st !! sid) as [user|]; [|cbn; by intros ?%elem_of_nil].
      destruct (rooms st !! s_roomCode user); cbn; [|by intros ?%elem_of_nil].
      rewrite !elem_of_cons, elem_of_nil. intros [|[|[|[]]]]; discriminate.
    + apply Hout.
    + by rewrite Hout.
Qed.

(** X8. A connection without a session that disconnects leaves the whole
    state as it is and nothing is emitted. *)
Theorem disconnect_without_session (st : ServerState) (sid : string) (e : Env) :
  reachable ToString st →
  users st !! sid = None →
  handle ToString st (mkInbound sid e Disconnect) = mkOutcome st [] Returned.
Proof.
  intros Hreach Hu. unfold handle, disconnect. cbn [event sender env].
  rewrite Hu. rewrite delete_id by by apply joined_iff_session. by destruct st.
Qed.

(** X9. A chat message from a joined sender is appended to the log of its
    room under the name and avatar of the sender's session, and the one
    [new-message] event reaches the sender itself and every connection whose
    session is bound to the room. *)
Theorem send_message_reaches_room (st : ServerState) (sid : string) (e : Env)
    (text : JsVal) (user : Session) (room : Room) :
  reachable ToString st →
  users st !! sid = Some user →
  rooms st !! s_roomCode user = Some room →
  let o := handle ToString st (mkInbound sid e (SendMessage text)) in
  let message := mkMessage (now e) (s_username user) (s_avatar user) text (iso e) in
  outbox o = [(ToRoom (s_roomCode user), NewMessage message)] ∧
  rooms (after o) !! s_roomCode user = Some (push_message room message) ∧
  receives (after o) (ToRoom (s_roomCode user)) sid = true ∧
  ∀ c other, users st !! c = Some other → s_roomCode other = s_roomCode user →
    receives (after o) (ToRoom (s_roomCode user)) c = true.
Proof.
  intros Hreach Hu Hr o message. subst o. unfold handle, send_message.
  cbn [event sender env]. rewrite Hu, Hr. cbn [outbox after].
  split; [done|]. split; [apply lookup_insert_eq|].
  assert (Hall : ∀ c other, users st !! c = Some other →
            s_roomCode other = s_roomCode user →
            receives (set_rooms st (<[s_roomCode user := push_message room message]>
                                      (rooms st)))
                     (ToRoom (s_roomCode user)) c = true).
  { intros c other Hc Hcode. cbn. unfold in_room, rooms_of. cbn.
    apply bool_decide_eq_true_2. rewrite <- Hcode.
    by apply (session_room_joined ToString). }
  split; [by apply (Hall sid user)|done].
Qed.

(** Reading a property throws on [undefined] and [null] only. *)
Lemma get_prop_None (v : JsVal) (k : string) :
  get_prop v k = None ↔ v = JUndefined ∨ v = JNull.
Proof.
  destruct v; cbn; split; intros H; auto; try done; by destruct H.
Qed.

(** When the text of the [select-song] message cannot be built. *)
Lemma selected_text_None (username : string) (song : JsVal) :
  selected_text ToString username song = None ↔
  song = JUndefined ∨ song = JNull ∨
  (∃ title, get_prop song "title" = Some title ∧ ToString title = None) ∨
  (∃ artist, get_prop song "artist" = Some artist ∧ ToString artist = None).
Proof.
  unfold selected_text.
  destruct (get_prop song "title") as [title|] eqn:Htitle.
  - destruct (get_prop song "artist") as [artist|] eqn:Hartist.
    + assert (Hsong : ¬ (song = JUndefined ∨ song = JNull)).
      { intros H. apply (get_prop_None song "title") in H. congruence. }
      cbn. destruct (ToString title) eqn:Ht; cbn.
      * destruct (ToString artist) eqn:Ha; cbn.
        -- split; [done|]. intros [|[|[(t & [= <-] & ?)|(t & [= <-] & ?)]]];
             try congruence; by destruct Hsong; auto.
        -- split; [|done]. intros _. right. right. right. eauto.
      * split; [|done]. intros _. right. right. left. eauto.
    + apply get_prop_None in Hartist. cbn.
      destruct (ToString title); cbn; (split; [intros _|done]);
        destruct Hartist; auto.
  - apply get_prop_None in Htitle. cbn. split; [intros _|done].
    destruct Htitle; auto.
Qed.

(** X10. [select-song] from a joined sender always writes the playback fields
    and emits [song-changed] to the room; it throws, after that and before any
    chat message is logged or sent, exactly when the song is [undefined] or
    [null] or its title or artist cannot be converted to text. *)
Theorem select_song_throws_late (st : ServerState) (sid : string) (e : Env)
    (song : JsVal) (user : Session) (room : Room) :
  users st !! sid = Some user →
  rooms st !! s_roomCode user = Some room →
  let o := handle ToString st (mkInbound sid e (SelectSong song)) in
  let changed :=
    (ToRoom (s_roomCode user), SongChanged song (JBool false) (JNum 0%float)) in
  head (outbox o) = Some changed ∧
  (completion o = Threw ↔
     song = JUndefined ∨ song = JNull ∨
     (∃ title, get_prop song "title" = Some title ∧ ToString title = None) ∨
     (∃ artist, get_prop song "artist" = Some artist ∧ ToString artist = None)) ∧
  (completion o = Threw →
     outbox o = [changed] ∧
     ∃ room', rooms (after o) !! s_roomCode user = Some room' ∧
              r_messages room' = r_messages room) ∧
  (completion o = Returned →
     ∃ message room', outbox o = [changed; (ToRoom (s_roomCode user), NewMessage message)] ∧
       m_username message = "System" ∧
       rooms (after o) !! s_roomCode user = Some room' ∧
       r_messages room' = (r_messages room ++ [message])%list).
Proof.
  intros Hu Hr o changed. subst o changed.
  rewrite <- (selected_text_None (s_username user) song).
  unfold handle, select_song. cbn [event sender env]. rewrite Hu, Hr.
  destruct (selected_text ToString (s_username user) song) as [text|];
    cbn [outbox completion after head set_rooms rooms].
  - split; [done|]. split; [done|]. split; [done|]. intros _.
    eexists _, _. split; [done|]. split; [done|].
    split; [apply lookup_insert_eq|done].
  - split; [done|]. split; [done|]. split; [|done]. intros _.
    split; [done|]. eexists. split; [apply lookup_insert_eq|done].
Qed.

Lemma js_or_truthy (a b : JsVal) : truthy b = true → truthy (js_or a b) = true.
Proof. unfold js_or. by destruct (truthy a) eqn:Ha. Qed.

(** X11. In every reachable state every song of every playlist has a truthy
    artist and a truthy duration label: [add-song] replaces a missing or
    falsy one by [Unknown Artist] and by [0:00]. *)
Theorem playlist_songs_have_defaults (st : ServerState) (code : string)
    (room : Room) (s : Song) :
  reachable ToString st →
  rooms st !! code = Some room →
  s ∈ r_playlist room →
  truthy (sg_artist s) = true ∧ truthy (sg_duration s) = true.
Proof.
  intros Hreach Hlive. revert s. revert code room Hlive.
  pose (Q := λ r : Room, ∀ s, s ∈ r_playlist r →
               truthy (sg_artist s) = true ∧ truthy (sg_duration s) = true).
  change (map_Forall (λ (_ : string), Q) (rooms st)).
  induction Hreach as [|st [sid e ev] _ IH _]; [apply map_Forall_empty|].
  handler_cases ev; try done;
    try (apply map_Forall_insert_2; [|done];
         match goal with H : rooms st !! _ = Some _ |- _ => exact (IH _ _ H) end).
  - apply map_Forall_insert_2; [|done]. intros s Hs. by apply elem_of_nil in Hs.
  - apply map_Forall_insert_2; [|done]. intros s0 Hs. cbn in Hs.
    apply elem_of_app in Hs as [Hs|Hs]; [by apply (IH _ _ Hroom)|].
    apply list_elem_of_singleton in Hs as ->. cbn.
    split; by apply js_or_truthy.
  - case_bool_decide.
    + apply map_Forall_delete, map_Forall_insert_2; [|done]. exact (IH _ _ Hroom).
    + apply map_Forall_insert_2; [|done]. exact (IH _ _ Hroom).
Qed.

(** X12. On regular event sequences the room of every session is live and
    lists the session's connection, so a room-scoped event from a joined
    sender always finds its room. *)
Theorem session_room_is_live (st : ServerState) (sid : string) (sess : Session) :
  reachable_by ToString regular st →
  users st !! sid = Some sess →
  ∃ room, rooms st !! s_roomCode sess = Some room ∧ sid ∈ ids room.
Proof.
  intros Hreach Hsess.
  destruct (regular_consistent ToString st Hreach) as (_ & Hs & _).
  by apply Hs.
Qed.

(** X18. A member profile whose connection has no session is never removed:
    as long as the connection id does not come back and no [create-room]
    draws the room's code, every event leaves the room in the registry with
    that profile still listed.  (Such a profile is left behind when a
    connection joined a second room before it disconnected.) *)
Theorem stale_member_is_kept (st : ServerState) (i : Inbound) (sid code : string)
    (room : Room) :
  sender i ≠ sid →
  (event i = CreateRoom → generateRoomCode (rnd (env i)) ≠ code) →
  users st !! sid = None →
  rooms st !! code = Some room →
  sid ∈ ids room →
  let st' := after (handle ToString st i) in
  users st' !! sid = None ∧
  ∃ room', rooms st' !! code = Some room' ∧ sid ∈ ids room'.
Proof.
  intros Hother Hcreate Hnone Hroom Hin. destruct i as [c e ev].
  cbn [sender event env] in Hother, Hcreate.
  assert (Hedit : ∀ k r0 r1, rooms st !! k = Some r0 →
            (sid ∈ ids r0 → sid ∈ ids r1) →
            ∃ room', <[k := r1]> (rooms st) !! code = Some room' ∧ sid ∈ ids room').
  { intros k r0 r1 Hk Hkeep. destruct (decide (k = code)) as [->|Hne].
    - rewrite lookup_insert_eq. eexists. split; [done|].
      apply Hkeep. congruence.
    - rewrite lookup_insert_ne by done. eauto. }
  assert (Hfilter : ∀ r0, sid ∈ ids r0 →
            sid ∈ u_id <$> filter (λ u, u_id u ≠ c) (r_users r0)).
  { intros r0 Hr0. apply list_elem_of_fmap in Hr0 as (u & -> & Hu).
    apply list_elem_of_fmap. exists u. split; [done|].
    apply list_elem_of_filter. split; [congruence|done]. }
  handler_cases ev; cbn [users rooms]; try solve [split; [done|]; eauto];
    try solve [split; [done|]; eapply Hedit; [eassumption|]; done].
  - split; [done|]. rewrite lookup_insert_ne by auto. eauto.
  - split; [by rewrite lookup_insert_ne|].
    eapply Hedit; [eassumption|]. unfold ids. cbn. rewrite fmap_app.
    intros ?. apply elem_of_app. by left.
  - split; [done|]. eapply Hedit; [eassumption|]. unfold ids. cbn.
    apply list_find_Some in Hfind as (Hn & _ & _).
    rewrite list_fmap_insert, list_insert_id; [done|].
    by rewrite list_lookup_fmap, Hn.
  - split; [by rewrite lookup_delete_ne|]. case_bool_decide as Hlen.
    + destruct (decide (s_roomCode user = code)) as [Hk|Hk].
      * exfalso. rewrite Hk, Hroom in Hroom0. injection Hroom0 as <-.
        apply nil_length_inv in Hlen. cbn in Hlen.
        specialize (Hfilter room Hin). rewrite Hlen in Hfilter.
        by apply elem_of_nil in Hfilter.
      * rewrite lookup_delete_ne, lookup_insert_ne by done. eauto.
    + eapply Hedit; [eassumption|]. unfold ids at 2. cbn. apply Hfilter.
  - split; [by rewrite lookup_delete_ne|]. eauto.
Qed.

(** X19. On regular event sequences a [typing] event from a joined sender
    always finds the sender's profile: it sets the typing flag of that
    profile to the supplied value, leaves every other profile and the session
    table as they are, and tells the other members, under the session's
    name. *)
Theorem typing_sets_the_sender_flag (st : ServerState) (sid : string) (e : Env)
    (isTyping : JsVal) (user : Session) :
  reachable_by ToString regular st →
  users st !! sid = Some user →
  let o := handle ToString st (mkInbound sid e (Typing isTyping)) in
  ∃ room room',
    rooms st !! s_roomCode user = Some room ∧
    rooms (after o) !! s_roomCode user = Some room' ∧
    outbox o = [(ToRoomExcept (s_roomCode user) sid,
                 UserTyping sid (s_username user) isTyping)] ∧
    users (after o) = users st ∧
    profile <$> r_users room' = profile <$> r_users room ∧
    (∀ u, u ∈ r_users room' → u_id u = sid → u_isTyping u = isTyping) ∧
    (∀ n u, r_users room !! n = Some u → u_id u ≠ sid →
            r_users room' !! n = Some u).
Proof.
  intros Hreach Hu o.
  destruct (regular_consistent ToString st Hreach) as (Hm & Hs & _).
  destruct (Hs sid user Hu) as (room & Hr & Hin).
  destruct (Hm _ _ Hr) as [Hnd _].
  subst o. unfold handle, typing. cbn [event sender env]. rewrite Hu, Hr.
  destruct (list_find (λ u, u_id u = sid) (r_users room)) as [[n roomUser]|] eqn:Hfind.
  - apply list_find_Some in Hfind as (Hn & Hid & _).
    cbn [after outbox rooms users set_rooms].
    eexists _, _. split; [done|]. split; [apply lookup_insert_eq|].
    split; [done|]. split; [done|]. cbn [r_users set_users].
    split; [by apply profile_set_isTyping|]. split.
    + intros u Hu' Hsid. apply list_elem_of_lookup in Hu' as [m Hm'].
      destruct (decide (m = n)) as [->|Hmn].
      * rewrite list_lookup_insert_eq in Hm' by (by eapply lookup_lt_Some).
        by injection Hm' as <-.
      * rewrite list_lookup_insert_ne in Hm' by done.
        exfalso. apply Hmn. eapply (NoDup_lookup (ids room)); [done| |].
        -- unfold ids. by rewrite list_lookup_fmap, Hm'; cbn; rewrite Hsid.
        -- unfold ids. by rewrite list_lookup_fmap, Hn; cbn; rewrite Hid.
    + intros m u Hm' Hne. rewrite list_lookup_insert_ne; [done|].
      intros <-. rewrite Hn in Hm'. injection Hm' as <-. done.
  - exfalso. apply list_find_None in Hfind.
    apply list_elem_of_fmap in Hin as (u & -> & Hu').
    rewrite Forall_forall in Hfind. by apply (Hfind u).
Qed.

End Handlers.

(** * The pages and the server together *)

Section System.

Variable ToString : JsVal → option string.

Lemma system_server (ok : ServerState → Inbound → Prop) (st : ServerState)
    (vs : string → ClientView) :
  system_by ToString ok st vs → reachable_by ToString ok st.
Proof. induction 1; by constructor. Qed.

(** In a consistent state the events a session's connection receives are
    the ones addressed to it or to the room of its session. *)
Lemma receives_consistent (st : ServerState) (c : string) (sess : Session)
    (t : Target) :
  consistent st →
  users st !! c = Some sess →
  receives st t c =
    match t with
    | ToSocket sid => bool_decide (c = sid)
    | ToRoom k => bool_decide (k = s_roomCode sess)
    | ToRoomExcept k sid =>
        bool_decide (k = s_roomCode sess) && negb (bool_decide (c = sid))
    end.
Proof.
  intros (_ & _ & Hf) Hsess.
  assert (Hin : ∀ k, in_room st k c = bool_decide (k = s_roomCode sess)).
  { intros k. unfold in_room, rooms_of. rewrite Hf, lookup_fmap, Hsess. cbn.
    apply bool_decide_ext, elem_of_singleton. }
  destruct t; cbn; by rewrite ?Hin.
Qed.

Lemma client_step_ext (c : string) (o : Outcome) (v : ClientView)
    (r : Target → bool) :
  (∀ t, receives (after o) t c = r t) →
  client_step c o v =
    foldl (λ v em, if r em.1 then client_on v (json_out em.2) else v) v (outbox o).
Proof.
  intros Hr. unfold client_step. revert v.
  induction (outbox o) as [|em out IH]; intros v; [done|].
  cbn. by rewrite Hr, IH.
Qed.

Lemma profile_json_user (us : list User) :
  profile <$> (json_user <$> us) = profile <$> us.
Proof. by rewrite <- list_fmap_compose. Qed.

(** The view of a page whose room an event does not concern. *)
Ltac sync_finish :=
  cbn [client_on]; unfold update_room;
  match goal with Hview : c_room _ = Some _ |- _ => rewrite ?Hview end;
  cbn [c_room fmap option_fmap option_map];
  eexists _, _; split; [reflexivity|]; split; [reflexivity|];
  match goal with
  | Hmatch : view_matches _ _ _ |- _ =>
      destruct Hmatch as (?&?&?&?&?); unfold view_matches; cbn;
      rewrite ?fmap_app, ?profile_json_user; cbn;
      repeat split; congruence
  end.

(** One handler run keeps the views of the joined pages in step. *)
Lemma sync_step (st : ServerState) (vs : string → ClientView) (i : Inbound) :
  consistent st →
  regular st i →
  consistent (after (handle ToString st i)) →
  in_sync st vs →
  in_sync (after (handle ToString st i))
          (λ c, client_step c (handle ToString st i) (vs c)).
Proof.
  intros Hpre Hreg Hpost Hsync c sess' Hsess'.
  rewrite (client_step_ext c _ (vs c) _
             (λ t, receives_consistent _ c sess' t Hpost Hsess')).
  clear Hpost. revert Hsess'. destruct i as [sid e ev].
  destruct Hpre as (Hm & Hs & Hf). unfold regular in Hreg.
  cbn [event sender env] in Hreg.
  assert (Hedit : ∀ k room room' f,
    users st !! c = Some sess' →
    rooms st !! k = Some room →
    (∀ view, view_matches k view room → view_matches k (f view) room') →
    ∃ r v, <[k := room']> (rooms st) !! s_roomCode sess' = Some r ∧
      c_room (if bool_decide (k = s_roomCode sess')
              then update_room f (vs c) else vs c) = Some v ∧
      view_matches (s_roomCode sess') v r).
  { intros k room room' f Hsess' Hroom Hf'.
    destruct (Hsync c sess' Hsess') as (room0 & view & Hroom0 & Hview & Hmatch).
    case_bool_decide as Hk.
    - subst k. rewrite lookup_insert_eq. unfold update_room. rewrite Hview. cbn.
      eexists _, _. split; [done|]. split; [done|].
      apply Hf'. congruence.
    - rewrite lookup_insert_ne by done. eauto. }
  handler_cases ev.
  all: cbn [foldl fst snd json_out].
  all: try (intros Hsess'; exact (Hsync c sess' Hsess')).
  - (* create-room *)
    intros Hsess'.
    destruct (Hsync c sess' Hsess') as (room0 & view & Hroom0 & Hview & Hmatch).
    rewrite lookup_insert_ne by congruence.
    exists room0, view. by destruct (bool_decide (c = sid)).
  - (* join-room *)
    destruct (decide (sid = c)) as [->|Hne].
    + rewrite lookup_insert_eq. intros [= <-]. cbn [s_roomCode session_of].
      rewrite lookup_insert_eq.
      rewrite !bool_decide_eq_true_2 by done. cbn.
      eexists _, _. split; [done|]. split; [done|]. unfold view_matches. cbn.
      by rewrite fmap_app, profile_json_user.
    + rewrite lookup_insert_ne by done. intros Hsess'.
      rewrite (bool_decide_eq_false_2 (c = sid)) by congruence.
      cbn [negb andb].
      destruct (Hsync c sess' Hsess') as (room0 & view & Hroom0 & Hview & Hmatch).
      case_bool_decide as Hk.
      * subst roomCode. rewrite lookup_insert_eq.
        rewrite Hroom in Hroom0. injection Hroom0 as <-. sync_finish.
      * rewrite lookup_insert_ne by done. eauto.
  - (* join-room, unknown code *)
    intros Hsess'.
    destruct (Hsync c sess' Hsess') as (room0 & view & Hroom0 & Hview & Hmatch).
    exists room0, view. by destruct (bool_decide (c = sid)).
  - (* send-message *)
    intros Hsess'. eapply (Hedit _ _ _ _ Hsess' Hroom).
    intros view (?&?&?&?&?). unfold view_matches. cbn. rewrite ?fmap_app. cbn.
    repeat split; congruence.
  - (* typing *)
    intros Hsess'.
    destruct (Hsync c sess' Hsess') as (room0 & view & Hroom0 & Hview & Hmatch).
    apply list_find_Some in Hfind as (Hn & _ & _).
    assert (Hsame : c_room
        (if bool_decide (s_roomCode user = s_roomCode sess') &&
            negb (bool_decide (c = sid))
         then client_on (vs c) (UserTyping sid (s_username user) (json isTyping))
         else vs c) = Some view).
    { by destruct (_ && _). }
    rewrite Hsame.
    destruct (decide (s_roomCode user = s_roomCode sess')) as [Hk|Hk].
    * rewrite Hk, lookup_insert_eq. rewrite Hk, Hroom0 in Hroom.
      injection Hroom as <-. eexists _, _. split; [done|]. split; [done|].
      destruct Hmatch as (?&?&?&?&?). unfold view_matches. cbn.
      rewrite profile_set_isTyping by done. done.
    * rewrite lookup_insert_ne by done. eauto.
  - (* add-song *)
    intros Hsess'. eapply (Hedit _ _ _ _ Hsess' Hroom).
    intros view (?&?&?&?&?). unfold view_matches. cbn. rewrite ?fmap_app. cbn.
    repeat split; congruence.
  - (* music-control *)
    intros Hsess'.
    destruct (Hsync c sess' Hsess') as (room0 & view & Hroom0 & Hview & Hmatch).
    destruct (decide (s_roomCode user = s_roomCode sess')) as [Hk|Hk].
    * rewrite Hk, lookup_insert_eq. rewrite Hk, Hroom0 in Hroom.
      injection Hroom as <-.
      destruct (_ && _); sync_finish.
    * rewrite lookup_insert_ne by done.
      rewrite (bool_decide_eq_false_2 _ Hk). cbn. eauto.
  - (* select-song *)
    intros Hsess'.
    destruct (Hsync c sess' Hsess') as (room0 & view & Hroom0 & Hview & Hmatch).
    case_bool_decide as Hk.
    * rewrite Hk, lookup_insert_eq. rewrite Hk, Hroom0 in Hroom.
      injection Hroom as <-. sync_finish.
    * rewrite lookup_insert_ne by done. eauto.
  - (* select-song that throws *)
    intros Hsess'.
    destruct (Hsync c sess' Hsess') as (room0 & view & Hroom0 & Hview & Hmatch).
    case_bool_decide as Hk.
    * rewrite Hk, lookup_insert_eq. rewrite Hk, Hroom0 in Hroom.
      injection Hroom as <-. sync_finish.
    * rewrite lookup_insert_ne by done. eauto.
  - (* disconnect *)
    destruct (decide (sid = c)) as [->|Hne]; [by rewrite lookup_delete_eq|].
    rewrite lookup_delete_ne by done. intros Hsess'.
    rewrite (bool_decide_eq_false_2 (c = sid)) by congruence.
    cbn [negb andb r_users push_message].
    destruct (Hsync c sess' Hsess') as (room0 & view & Hroom0 & Hview & Hmatch).
    destruct (decide (s_roomCode user = s_roomCode sess')) as [Hk|Hk].
    * rewrite !(bool_decide_eq_true_2 _ Hk).
      rewrite Hk, Hroom0 in Hroom. injection Hroom as <-.
      destruct (Hs c sess' Hsess') as (room1 & Hroom1 & Hin).
      rewrite Hroom0 in Hroom1. injection Hroom1 as <-.
      assert (Hleft : length (filter (λ u, u_id u ≠ sid) (r_users room0)) ≠ 0%nat).
      { intros Hlen. apply nil_length_inv in Hlen.
        apply list_elem_of_fmap in Hin as (u & -> & Hu).
        eapply filter_nil_not_elem_of; [exact Hlen| |exact Hu]. cbn. congruence. }
      rewrite (bool_decide_eq_false_2 _ Hleft).
      rewrite Hk, lookup_insert_eq. sync_finish.
    * rewrite !(bool_decide_eq_false_2 _ Hk).
      exists room0, view. split; [|done].
      case_bool_decide.
      -- rewrite lookup_delete_ne, lookup_insert_ne by done. done.
      -- rewrite lookup_insert_ne by done. done.
  - (* disconnect, the room is gone *)
    destruct (decide (sid = c)) as [->|Hne]; [by rewrite lookup_delete_eq|].
    rewrite lookup_delete_ne by done. intros Hsess'. exact (Hsync c sess' Hsess').
Qed.

Lemma system_in_sync (st : ServerState) (vs : string → ClientView) :
  system_by ToString regular st vs → in_sync st vs.
Proof.
  induction 1 as [vs|st vs i Hsys IH Hok].
  - intros c sess Hsess. cbn in Hsess. by rewrite lookup_empty in Hsess.
  - pose proof (system_server regular st vs Hsys) as Hreach.
    apply sync_step; [|done| |done].
    + by apply (regular_consistent ToString).
    + apply (regular_consistent ToString). by constructor.
Qed.

Lemma system_by_regular (st : ServerState) (vs : string → ClientView) :
  system_by ToString regular_timed st vs → system_by ToString regular st vs.
Proof. induction 1 as [|st vs i _ IH [Hreg _]]; by constructor. Qed.

(** X13. On regular event sequences the page behind every connection that has
    a session shows the room of that session as JSON carries it: the room's
    code, its members with their ids, names and avatars, and the JSON form of
    its message log, its playlist and its current song, whatever the page
    showed before it joined. *)
Theorem client_view_in_sync (st : ServerState) (vs : string → ClientView)
    (c : string) (sess : Session) :
  system_by ToString regular_timed st vs →
  users st !! c = Some sess →
  ∃ room view,
    rooms st !! s_roomCode sess = Some room ∧
    c_room (vs c) = Some view ∧
    r_code view = s_roomCode sess ∧
    r_messages view = json_message <$> r_messages room ∧
    r_playlist view = json_song <$> r_playlist room ∧
    r_currentSong view = json (r_currentSong room) ∧
    profile <$> r_users view = profile <$> r_users room.
Proof.
  intros Hsys. by apply system_in_sync, system_by_regular.
Qed.

(** The view of a joined page after one handler run, with the recipients
    read off the sessions. *)
Lemma client_step_session (st : ServerState) (vs : string → ClientView)
    (i : Inbound) (c : string) (sess : Session) :
  system_by ToString regular st vs →
  regular st i →
  users (after (handle ToString st i)) !! c = Some sess →
  client_step c (handle ToString st i) (vs c) =
    foldl (λ v em,
             if match em.1 with
                | ToSocket sid => bool_decide (c = sid)
                | ToRoom k => bool_decide (k = s_roomCode sess)
                | ToRoomExcept k sid =>
                    bool_decide (k = s_roomCode sess) && negb (bool_decide (c = sid))
                end
             then client_on v (json_out em.2) else v)
          (vs c) (outbox (handle ToString st i)).
Proof.
  intros Hsys Hreg Hsess.
  apply (client_step_ext c _ (vs c)
           (λ t, match t with
                 | ToSocket sid => bool_decide (c = sid)
                 | ToRoom k => bool_decide (k = s_roomCode sess)
                 | ToRoomExcept k sid =>
                     bool_decide (k = s_roomCode sess) && negb (bool_decide (c = sid))
                 end)).
  intros t. apply receives_consistent; [|done].
  apply (regular_consistent ToString). constructor; [|done].
  by apply (system_server regular st vs).
Qed.

(** X14. On regular event sequences a [music-control] brings the play flag
    and the playhead of every other page of the room to the JSON form of the
    values the server stored (a playhead that is not finite arrives as
    [null]), and leaves the view of the sender's own page untouched. *)
Theorem music_sync_updates_other_views (st : ServerState)
    (vs : string → ClientView) (sid c : string) (e : Env)
    (isPlaying currentTime : JsVal) (user other : Session) :
  system_by ToString regular_timed st vs →
  users st !! sid = Some user →
  users st !! c = Some other →
  s_roomCode other = s_roomCode user →
  c ≠ sid →
  let o := handle ToString st (mkInbound sid e (MusicControl isPlaying currentTime)) in
  client_step sid o (vs sid) = vs sid ∧
  ∃ room' view',
    rooms (after o) !! s_roomCode user = Some room' ∧
    c_room (client_step c o (vs c)) = Some view' ∧
    r_isPlaying view' = json (r_isPlaying room') ∧
    r_currentTime view' = json (r_currentTime room') ∧
    r_isPlaying room' = isPlaying.
Proof.
  intros Htimed Hu Hc Hcode Hne o.
  pose proof (system_by_regular st vs Htimed) as Hsys.
  pose proof (regular_consistent ToString st (system_server regular st vs Hsys))
    as (_ & Hs & _).
  destruct (Hs sid user Hu) as (room & Hr & _).
  assert (Ho : o = _)
    by apply (music_control_outcome ToString st sid e isPlaying currentTime
                user room Hu Hr).
  assert (Husers : users (after o) = users st) by (by rewrite Ho).
  split.
  - subst o.
    rewrite (client_step_session st vs
               (mkInbound sid e (MusicControl isPlaying currentTime))
               sid user Hsys I) by (by rewrite Husers).
    rewrite Ho. cbn. rewrite (bool_decide_eq_true_2 (sid = sid)) by done.
    by rewrite andb_false_r.
  - destruct (system_in_sync st vs Hsys c other Hc)
      as (room0 & view & _ & Hview & _).
    subst o.
    rewrite (client_step_session st vs
               (mkInbound sid e (MusicControl isPlaying currentTime))
               c other Hsys I) by (by rewrite Husers).
    rewrite Ho. cbn [outbox after foldl fst snd json_out].
    rewrite (bool_decide_eq_true_2 _ (eq_sym Hcode)).
    rewrite (bool_decide_eq_false_2 (c = sid)) by done. cbn [negb andb client_on].
    unfold update_room. rewrite Hview. cbn.
    eexists _, _. split; [apply lookup_insert_eq|]. done.
Qed.

(** X15. On regular event sequences a [select-song] brings the current song,
    the play flag and the playhead of every page of the room, the sender's
    included, to the JSON form of the song, false and 0. *)
Theorem song_changed_resets_every_view (st : ServerState)
    (vs : string → ClientView) (sid c : string) (e : Env) (song : JsVal)
    (user other : Session) :
  system_by ToString regular_timed st vs →
  users st !! sid = Some user →
  users st !! c = Some other →
  s_roomCode other = s_roomCode user →
  let o := handle ToString st (mkInbound sid e (SelectSong song)) in
  ∃ view', c_room (client_step c o (vs c)) = Some view' ∧
    playback view' = (json song, JBool false, JNum 0%float).
Proof.
  intros Htimed Hu Hc Hcode o.
  pose proof (system_by_regular st vs Htimed) as Hsys.
  pose proof (regular_consistent ToString st (system_server regular st vs Hsys))
    as (_ & Hs & _).
  destruct (Hs sid user Hu) as (room & Hr & _).
  destruct (system_in_sync st vs Hsys c other Hc)
    as (room0 & view & _ & Hview & _).
  assert (Husers : users (after o) = users st).
  { by destruct (select_song_room ToString st sid e song user room Hu Hr). }
  subst o.
  rewrite (client_step_session st vs (mkInbound sid e (SelectSong song))
             c other Hsys I) by (by rewrite Husers).
  unfold handle, select_song. cbn [event sender env]. rewrite Hu, Hr.
  destruct (selected_text ToString (s_username user) song);
    cbn [outbox after foldl fst snd json_out set_playback set_currentSong
         r_currentSong];
    rewrite !(bool_decide_eq_true_2 _ (eq_sym Hcode));
    cbn [client_on]; unfold update_room; rewrite Hview; cbn; eauto.
Qed.

(** X16. The play button does not toggle for the page that pressed it: the
    server leaves the sender out of [music-sync] and the page does not update
    its own view, so pressing the button again sends the same play flag. *)
Theorem own_toggle_is_not_echoed (st : ServerState) (vs : string → ClientView)
    (sid : string) (e : Env) (user : Session) (audioTime audioTime' : JsVal)
    (isPlaying currentTime : JsVal) :
  system_by ToString regular st vs →
  users st !! sid = Some user →
  toggleMusic (vs sid) audioTime = Some (MusicControl isPlaying currentTime) →
  let o := handle ToString st (mkInbound sid e (MusicControl isPlaying currentTime)) in
  toggleMusic (client_step sid o (vs sid)) audioTime'
  = Some (MusicControl isPlaying (js_or audioTime' (JNum 0%float))).
Proof.
  intros Hsys Hu Htoggle o.
  pose proof (regular_consistent ToString st (system_server regular st vs Hsys))
    as (_ & Hs & _).
  destruct (Hs sid user Hu) as (room & Hr & _).
  assert (Ho : o = _)
    by apply (music_control_outcome ToString st sid e isPlaying currentTime
                user room Hu Hr).
  assert (Hsame : client_step sid o (vs sid) = vs sid).
  { subst o.
    rewrite (client_step_session st vs
               (mkInbound sid e (MusicControl isPlaying currentTime))
               sid user Hsys I) by (by rewrite Ho).
    rewrite Ho. cbn. rewrite (bool_decide_eq_true_2 (sid = sid)) by done.
    by rewrite andb_false_r. }
  rewrite Hsame. revert Htoggle. unfold toggleMusic.
  destruct (c_room (vs sid)) as [view|]; [|done].
  destruct (truthy (r_currentSong view)); [|done].
  by intros [= <- _].
Qed.

End System.

(** ** The typing indicator of a page *)

(** X17. The [user-typing] listener keeps the list of typing names free of
    duplicates: afterwards the name of the event is in the list exactly when
    the flag is truthy, at the end of the list, and every other name is in the
    list exactly when it was before. *)
Theorem typing_list_update (v : ClientView) (userId username : string)
    (isTyping : JsVal) :
  let v' := client_on v (UserTyping userId username isTyping) in
  c_room v' = c_room v ∧
  (username ∈ c_typingUsers v' ↔ truthy isTyping = true) ∧
  (truthy isTyping = true → last (c_typingUsers v') = Some username) ∧
  (∀ name, name ≠ username →
     (name ∈ c_typingUsers v' ↔ name ∈ c_typingUsers v)) ∧
  (NoDup (c_typingUsers v) → NoDup (c_typingUsers v')).
Proof.
  cbn. split; [done|].
  assert (Hout : username ∉ filter (λ u, u ≠ username) (c_typingUsers v)).
  { intros Hin. by apply list_elem_of_filter in Hin as [Hne _]. }
  destruct (truthy isTyping); cbn.
  - split; [split; [done|]; intros _; apply elem_of_app; right;
            by apply list_elem_of_singleton|].
    split; [intros _; apply last_snoc|]. split.
    + intros name Hne. rewrite elem_of_app, list_elem_of_filter,
        list_elem_of_singleton. tauto.
    + intros Hnd. apply NoDup_app. split; [by apply NoDup_filter|].
      split; [|apply NoDup_singleton].
      intros x Hx Hx'. apply list_elem_of_singleton in Hx' as ->. done.
  - split; [split; [done|discriminate]|]. split; [discriminate|]. split.
    + intros name Hne. rewrite list_elem_of_filter. tauto.
    + intros Hnd. by apply NoDup_filter.
Qed.

(** * The further properties on the sample inputs *)

Lemma system_by_run (ToString : JsVal → option string)
    (ok : ServerState → Inbound → Prop) (st : ServerState)
    (vs : string → ClientView) (trace : list Inbound) :
  system_by ToString ok st vs →
  all_ok ToString ok st trace →
  system_by ToString ok (run ToString st trace) (views_run ToString st vs trace).
Proof.
  revert st vs. induction trace as [|i rest IH]; intros st vs Hst Hok; [done|].
  destruct Hok as [Hi Hrest]. cbn. apply IH; [|done]. by constructor.
Qed.

Lemma ann_and_bo_system :
  system_by ToString_sample regular ann_and_bo ann_and_bo_views.
Proof.
  apply system_by_run; [apply system_by_run; [constructor|]|].
  - cbn. repeat split; reflexivity.
  - cbn. split; [|done]. vm_compute. reflexivity.
Qed.

Lemma ann_and_bo_timed :
  system_by ToString_sample regular_timed ann_and_bo ann_and_bo_views.
Proof.
  apply system_by_run; [apply system_by_run; [constructor|]|].
  - cbn. repeat split; reflexivity.
  - cbn. repeat split; vm_compute; reflexivity.
Qed.

Lemma song_selected_system :
  system_by ToString_sample regular song_selected song_selected_views.
Proof. apply system_by_run; [apply ann_and_bo_system|]. cbn. done. Qed.

Lemma ann_and_bo_regular : reachable_by ToString_sample regular ann_and_bo.
Proof. exact (system_server _ _ _ _ ann_and_bo_system). Qed.

Lemma song_added_reachable : reachable ToString_sample song_added.
Proof. apply reachable_by_run; [apply ann_in_room_reachable|]. cbn. done. Qed.

(** X4: the disconnect of Ann, the only member, removes room AB12CD. *)
Lemma room_removed_only_by_last_leave_witness :
  let i := mkInbound "s1" env1 Disconnect in
  event i = Disconnect ∧
  (∃ user, users ann_in_room !! sender i = Some user ∧ s_roomCode user = "AB12CD") ∧
  ∀ u, u ∈ r_users ann_room → u_id u = sender i.
Proof.
  apply (room_removed_only_by_last_leave ToString_sample ann_in_room
           (mkInbound "s1" env1 Disconnect) "AB12CD" ann_room).
  - vm_compute. reflexivity.
  - vm_compute. reflexivity.
Defined.

(** X5: a chat message of Ann. *)
Lemma logs_only_grow_witness :
  r_code (push_message ann_room hi_message) = r_code ann_room ∧
  (∃ ms, r_messages (push_message ann_room hi_message)
         = (r_messages ann_room ++ ms)%list ∧ (length ms ≤ 1)%nat) ∧
  (∃ ss, r_playlist (push_message ann_room hi_message)
         = (r_playlist ann_room ++ ss)%list ∧ (length ss ≤ 1)%nat).
Proof.
  apply (logs_only_grow ToString_sample ann_in_room
           (mkInbound "s1" env1 (SendMessage (JStr "hi"))) "AB12CD").
  - discriminate.
  - vm_compute. reflexivity.
  - vm_compute. reflexivity.
Defined.

(** X6: the session of Ann. *)
Lemma sessions_well_formed_witness :
  s_id ann_session = "s1" ∧
  s_avatar ann_session = getAvatarColor (s_username ann_session) ∧
  s_isTyping ann_session = JBool false ∧
  in_room ann_in_room (s_roomCode ann_session) "s1" = true.
Proof.
  apply (sessions_well_formed ToString_sample ann_in_room "s1" ann_session).
  - apply ann_in_room_reachable.
  - vm_compute. reflexivity.
Defined.

(** X7: Ann leaves the room she shares with Bo. *)
Lemma disconnect_cleans_up_witness :
  let o := handle ToString_sample ann_and_bo (mkInbound "s1" env0 Disconnect) in
  users (after o) !! "s1" = None ∧
  joined (after o) !! "s1" = None ∧
  (∀ code room, rooms (after o) !! code = Some room → "s1" ∉ ids room) ∧
  (∀ t ev, (t, ev) ∈ outbox o → receives (after o) t "s1" = false).
Proof.
  apply (disconnect_cleans_up ToString_sample ann_and_bo "s1" env0).
  apply ann_and_bo_regular.
Defined.

(** X8: a connection that never joined goes away. *)
Lemma disconnect_without_session_witness :
  handle ToString_sample ann_in_room (mkInbound "s9" env1 Disconnect)
  = mkOutcome ann_in_room [] Returned.
Proof.
  apply (disconnect_without_session ToString_sample ann_in_room "s9" env1).
  - apply ann_in_room_reachable.
  - vm_compute. reflexivity.
Defined.

(** X9: scenario C, Ann says hi to the room she shares with Bo. *)
Lemma send_message_reaches_room_witness :
  let o := handle ToString_sample ann_and_bo
             (mkInbound "s1" env1 (SendMessage (JStr "hi"))) in
  outbox o = [(ToRoom "AB12CD", NewMessage hi_message)] ∧
  rooms (after o) !! "AB12CD" = Some (push_message ann_and_bo_room hi_message) ∧
  receives (after o) (ToRoom "AB12CD") "s1" = true ∧
  ∀ c other, users ann_and_bo !! c = Some other → s_roomCode other = "AB12CD" →
    receives (after o) (ToRoom "AB12CD") c = true.
Proof.
  apply (send_message_reaches_room ToString_sample ann_and_bo "s1" env1
           (JStr "hi") ann_session ann_and_bo_room).
  - apply ann_and_bo_reachable.
  - vm_compute. reflexivity.
  - vm_compute. reflexivity.
Defined.

(** X10: Ann selects [null]. *)
Lemma select_song_throws_late_witness :
  let o := handle ToString_sample ann_in_room
             (mkInbound "s1" env1 (SelectSong JNull)) in
  let changed :=
    (ToRoom "AB12CD", SongChanged JNull (JBool false) (JNum 0%float)) in
  head (outbox o) = Some changed ∧
  (completion o = Threw ↔
     JNull = JUndefined ∨ JNull = JNull ∨
     (∃ title, get_prop JNull "title" = Some title ∧ ToString_sample title = None) ∨
     (∃ artist, get_prop JNull "artist" = Some artist ∧
                ToString_sample artist = None)) ∧
  (completion o = Threw →
     outbox o = [changed] ∧
     ∃ room', rooms (after o) !! "AB12CD" = Some room' ∧
              r_messages room' = r_messages ann_room) ∧
  (completion o = Returned →
     ∃ message room', outbox o = [changed; (ToRoom "AB12CD", NewMessage message)] ∧
       m_username message = "System" ∧
       rooms (after o) !! "AB12CD" = Some room' ∧
       r_messages room' = (r_messages ann_room ++ [message])%list).
Proof.
  apply (select_song_throws_late ToString_sample ann_in_room "s1" env1 JNull
           ann_session ann_room).
  - vm_compute. reflexivity.
  - vm_compute. reflexivity.
Defined.

(** X11: a song added with an empty artist and no duration. *)
Lemma playlist_songs_have_defaults_witness :
  truthy (sg_artist added_song) = true ∧ truthy (sg_duration added_song) = true.
Proof.
  eapply (playlist_songs_have_defaults ToString_sample song_added "AB12CD").
  - apply song_added_reachable.
  - vm_compute. reflexivity.
  - apply list_elem_of_singleton. reflexivity.
Defined.

(** X12: the room of the session of Bo. *)
Lemma session_room_is_live_witness :
  ∃ room, rooms ann_and_bo !! s_roomCode bo_session = Some room ∧ "s2" ∈ ids room.
Proof.
  apply (session_room_is_live ToString_sample ann_and_bo "s2" bo_session).
  - apply ann_and_bo_regular.
  - vm_compute. reflexivity.
Defined.

(** X13: scenario B, the page of Ann after Bo joined. *)
Lemma client_view_in_sync_witness :
  ∃ room view,
    rooms ann_and_bo !! s_roomCode ann_session = Some room ∧
    c_room (ann_and_bo_views "s1") = Some view ∧
    r_code view = s_roomCode ann_session ∧
    r_messages view = json_message <$> r_messages room ∧
    r_playlist view = json_song <$> r_playlist room ∧
    r_currentSong view = json (r_currentSong room) ∧
    profile <$> r_users view = profile <$> r_users room.
Proof.
  apply (client_view_in_sync ToString_sample ann_and_bo ann_and_bo_views "s1"
           ann_session).
  - apply ann_and_bo_timed.
  - vm_compute. reflexivity.
Defined.

(** X14: Ann starts playback, Bo's page follows. *)
Lemma music_sync_updates_other_views_witness :
  let o := handle ToString_sample ann_and_bo
             (mkInbound "s1" env1 (MusicControl (JBool true) (JNum 12.5%float))) in
  client_step "s1" o (ann_and_bo_views "s1") = ann_and_bo_views "s1" ∧
  ∃ room' view',
    rooms (after o) !! s_roomCode ann_session = Some room' ∧
    c_room (client_step "s2" o (ann_and_bo_views "s2")) = Some view' ∧
    r_isPlaying view' = json (r_isPlaying room') ∧
    r_currentTime view' = json (r_currentTime room') ∧
    r_isPlaying room' = JBool true.
Proof.
  apply (music_sync_updates_other_views ToString_sample ann_and_bo
           ann_and_bo_views "s1" "s2" env1 (JBool true) (JNum 12.5%float)
           ann_session bo_session).
  - apply ann_and_bo_timed.
  - vm_compute. reflexivity.
  - vm_compute. reflexivity.
  - reflexivity.
  - discriminate.
Defined.

(** X15: scenario D, Ann selects a song, seen from Bo's page. *)
Lemma song_changed_resets_every_view_witness :
  let o := handle ToString_sample ann_and_bo
             (mkInbound "s1" env1 (SelectSong stray_song)) in
  ∃ view', c_room (client_step "s2" o (ann_and_bo_views "s2")) = Some view' ∧
    playback view' = (json stray_song, JBool false, JNum 0%float).
Proof.
  apply (song_changed_resets_every_view ToString_sample ann_and_bo
           ann_and_bo_views "s1" "s2" env1 stray_song ann_session bo_session).
  - apply ann_and_bo_timed.
  - vm_compute. reflexivity.
  - vm_compute. reflexivity.
  - reflexivity.
Defined.

(** X16: Ann presses play on the selected song, and presses again. *)
Lemma own_toggle_is_not_echoed_witness :
  let o := handle ToString_sample song_selected
             (mkInbound "s1" env1 (MusicControl (JBool true) (JNum 3.5%float))) in
  toggleMusic (client_step "s1" o (song_selected_views "s1")) (JNum 4.5%float)
  = Some (MusicControl (JBool true) (js_or (JNum 4.5%float) (JNum 0%float))).
Proof.
  apply (own_toggle_is_not_echoed ToString_sample song_selected
           song_selected_views "s1" env1
           (mkSession "s1" "Ann" "#EF4444" (JBool false) "AB12CD")
           (JNum 3.5%float)).
  - apply song_selected_system.
  - vm_compute. reflexivity.
  - vm_compute. reflexivity.
Defined.

(** X18: the profile left behind in AB12CD survives the join of Bo. *)
Lemma stale_member_is_kept_witness :
  let st' := after (handle ToString_sample ann_gone
                      (mkInbound "s2" env1 (JoinRoom "AB12CD" "Bo"))) in
  users st' !! "s1" = None ∧
  ∃ room', rooms st' !! "AB12CD" = Some room' ∧ "s1" ∈ ids room'.
Proof.
  apply (stale_member_is_kept ToString_sample ann_gone
           (mkInbound "s2" env1 (JoinRoom "AB12CD" "Bo")) "s1" "AB12CD" ann_room).
  - discriminate.
  - discriminate.
  - vm_compute. reflexivity.
  - vm_compute. reflexivity.
  - apply list_elem_of_singleton. reflexivity.
Defined.

(** X19: Ann starts typing in the room she shares with Bo. *)
Lemma typing_sets_the_sender_flag_witness :
  let o := handle ToString_sample ann_and_bo
             (mkInbound "s1" env1 (Typing (JBool true))) in
  ∃ room room',
    rooms ann_and_bo !! s_roomCode ann_session = Some room ∧
    rooms (after o) !! s_roomCode ann_session = Some room' ∧
    outbox o = [(ToRoomExcept (s_roomCode ann_session) "s1",
                 UserTyping "s1" (s_username ann_session) (JBool true))] ∧
    users (after o) = users ann_and_bo ∧
    profile <$> r_users room' = profile <$> r_users room ∧
    (∀ u, u ∈ r_users room' → u_id u = "s1" → u_isTyping u = JBool true) ∧
    (∀ n u, r_users room !! n = Some u → u_id u ≠ "s1" →
            r_users room' !! n = Some u).
Proof.
  apply (typing_sets_the_sender_flag ToString_sample ann_and_bo "s1" env1
           (JBool true) ann_session).
  - apply ann_and_bo_regular.
  - vm_compute. reflexivity.
Defined.

(** ** The initials a page shows for a name *)

Lemma concat_empty_cons (w : string) (words : list string) :
  String.concat "" (w :: words) = String.append w (String.concat "" words).
Proof.
  destruct words as [|w' words]; [|done]. cbn [String.concat].
  induction w as [|c w IH]; [done|].
  change (String c w = String c (String.append w "")). by rewrite <- IH.
Qed.

Lemma concat_first_chars (words : list string) :
  String.concat "" (first_char <$> words)
  = string_of_list_ascii (omap first_letter words).
Proof.
  induction words as [|w words IH]; [done|].
  rewrite fmap_cons, concat_empty_cons, IH.
  by destruct w.
Qed.

Lemma toUpperCase_string_of_list (l : list ascii) :
  toUpperCase (string_of_list_ascii l) = string_of_list_ascii (upper_ascii <$> l).
Proof. induction l as [|c l IH]; [done|]. cbn. by rewrite IH. Qed.

Lemma substring_string_of_list (n : nat) (l : list ascii) :
  String.substring 0 n (string_of_list_ascii l) = string_of_list_ascii (take n l).
Proof.
  revert n. induction l as [|c l IH]; intros [|n]; cbn; try done.
  by rewrite IH.
Qed.

(** X20. The initials of a name are the first characters of its first two
    non-empty words, in upper case: empty words, which leading, trailing or
    doubled spaces produce, contribute nothing, and a name without any letter
    has no initials. *)
Theorem getInitials_first_two_words (name : string) :
  ascii_only name = true →
  getInitials name
  = string_of_list_ascii
      (upper_ascii <$> take 2 (omap first_letter (split_on " "%char name))) ∧
  (String.length (getInitials name) ≤ 2)%nat.
Proof.
  intros _. unfold getInitials.
  rewrite concat_first_chars, toUpperCase_string_of_list,
    substring_string_of_list, fmap_take.
  split; [done|].
  assert (Hlen : ∀ l, String.length (string_of_list_ascii l) = length l).
  { induction l as [|c l IH]; [done|]. cbn. by rewrite IH. }
  rewrite Hlen, length_take. lia.
Qed.

(** X20 on a name with a doubled space. *)
Lemma getInitials_first_two_words_witness :
  getInitials "ann  lee jones"
  = string_of_list_ascii
      (upper_ascii <$> take 2 (omap first_letter
                                 (split_on " "%char "ann  lee jones"))) ∧
  (String.length (getInitials "ann  lee jones") ≤ 2)%nat.
Proof. apply (getInitials_first_two_words "ann  lee jones"). reflexivity. Defined.

(** The transport at work: a playhead of [Infinity] (a client can send the
    JSON text 1e999) is stored as it is and reaches Bo's page as [null]; a
    negative zero reaches it as [0]. *)
Lemma infinite_playhead_arrives_as_null :
  let o := handle ToString_sample ann_and_bo
             (mkInbound "s1" env1 (MusicControl (JBool true) (JNum infinity))) in
  r_currentTime <$> rooms (after o) !! "AB12CD" = Some (JNum infinity) ∧
  r_currentTime <$> c_room (client_step "s2" o (ann_and_bo_views "s2"))
  = Some JNull ∧
  json (JNum (-0)%float) = JNum 0%float ∧
  json (JArr [JUndefined; JNum nan]) = JArr [JNull; JNull] ∧
  json (JObj [("a", JUndefined); ("b", JNum 1%float); ("b", JNum 2%float)])
  = JObj [("b", JNum 1%float)].
Proof. vm_compute. done. Qed.
